(** * Funding-arbitrage analyzer: extraction, position reconstruction, metrics

    A shallow embedding of [utils/funding_arbitrage_analyzer.py]
    (class [FundingArbitrageAnalyzer]) and the properties of its
    extraction-reconciliation-metrics pipeline.

    Modelling conventions.
    - Python [float] quantities (sizes, prices, fees, payments, hours) are
      exact rationals [Q]; results are compared with [==].  Rounding of
      binary64 arithmetic is outside this model.
    - A naive [datetime] is its number of seconds since the epoch ([Z]);
      [int(dt.timestamp() * 1000)] is that number times 1000, and the
      ['%Y-%m-%d %H:%M:%S'] text of a millisecond stamp is the stamp
      divided by 1000 (rounded down).
    - Strings are byte strings; [str.lower] acts on ASCII letters.
    - A pandas frame is the list of its rows; the column-less frame
      [pd.DataFrame()] is told apart where the source indexes a column
      without a guard.
    - A Python exception is a value of [PyError] returned with [Raise]. *)

From Stdlib Require Import ZArith QArith Qabs Lqa List String Ascii Permutation Bool.
From stdpp Require Import gmap strings list.
Import ListNotations.

Local Open Scope Q_scope.

(** ** Numbers *)

Definition Qltb (x y : Q) : bool := negb (Qle_bool y x).

(** [Series.sum()] *)
Definition Qsum (l : list Q) : Q := fold_right Qplus 0 l.

(** Equality of optional numbers up to [==] (an absent price is the empty
    string in the source). *)
Definition oQeq (a b : option Q) : Prop :=
  match a, b with
  | Some x, Some y => x == y
  | None, None => True
  | _, _ => False
  end.

(** ** Strings *)

Definition lower_ascii (c : ascii) : ascii :=
  let n := nat_of_ascii c in
  if ((65 <=? n)%nat && (n <=? 90)%nat)%bool then ascii_of_nat (n + 32) else c.

(** [s.lower()] *)
Fixpoint lower (s : string) : string :=
  match s with
  | EmptyString => EmptyString
  | String c s' => String (lower_ascii c) (lower s')
  end.

(** [needle in hay] *)
Fixpoint contains (needle hay : string) : bool :=
  if String.prefix needle hay then true
  else match hay with
       | EmptyString => false
       | String _ hay' => contains needle hay'
       end.

(** [Series.str.contains(pat, case=False, na=False)] for a literal pattern *)
Definition str_contains_nocase (pat s : string) : bool :=
  contains (lower pat) (lower s).

(** ** Rows of the three extracted frames *)

(** A row of the venue-A trades frame ([trade_data.append({...})]). *)
Record Trade := mkTrade {
  tr_time : Z;
  tr_coin : string;
  tr_dir : string;
  tr_px : Q;
  tr_sz : Q;
  tr_ntl : Q;
  tr_fee : Q;
  tr_closedPnl : Q
}.

(** A row of the venue-A funding frame. *)
Record Funding := mkFunding {
  fu_time : Z;
  fu_coin : string;
  fu_sz : Q;
  fu_side : string;
  fu_payment : Q;
  fu_rate : Q
}.

Inductive BBType := FUNDING_FEE | TRADE | COMMISSION.

Definition BBType_eqb (a b : BBType) : bool :=
  match a, b with
  | FUNDING_FEE, FUNDING_FEE | TRADE, TRADE | COMMISSION, COMMISSION => true
  | _, _ => false
  end.

(** A row of the venue-B combined frame; the cells that hold [''] in
    funding rows are [None]. *)
Record BBRecord := mkBB {
  bb_type : BBType;
  bb_time : Z;
  bb_symbol : string;
  bb_amount : Q;
  bb_asset : string;
  bb_tranId : string;
  bb_tradeId : string;
  bb_side : string;
  bb_quantity : option Q;
  bb_price : option Q;
  bb_realizedPnl : option Q
}.

(** ** Exceptions *)

Inductive PyError :=
| UnboundLocalError (name : string)
| KeyError (key : string).

Inductive Result (A : Type) :=
| Ok (a : A)
| Raise (e : PyError).
Arguments Ok {A} a.
Arguments Raise {A} e.


(** ** Position reconstruction (the per-coin part of [analyze_performance]) *)

Definition nonempty {A} (l : list A) : bool :=
  match l with [] => false | _ => true end.

Definition dir_long (d : string) : bool := (contains "long" d || contains "buy" d)%bool.
Definition dir_short (d : string) : bool := (contains "short" d || contains "sell" d)%bool.

(** The running values of the loop over the trades of one coin. *)
Record PosAcc := mkPosAcc {
  net_position_size : Q;
  position_opened : bool;
  position_closed : bool
}.

Definition pos_init : PosAcc := mkPosAcc 0 false false.

(** One iteration of [for _, trade in coin_hl_trades.iterrows()]. *)
Definition accumulate_trade (st : PosAcc) (trade : Trade) : PosAcc :=
  let trade_size := tr_sz trade in
  let trade_dir := lower (tr_dir trade) in
  if contains "open" trade_dir then
    let net :=
      if dir_long trade_dir then net_position_size st + trade_size
      else if dir_short trade_dir then net_position_size st - trade_size
      else net_position_size st in
    mkPosAcc net true (position_closed st)
  else if contains "close" trade_dir then
    let net :=
      if dir_long trade_dir then net_position_size st - trade_size
      else if dir_short trade_dir then net_position_size st + trade_size
      else net_position_size st in
    mkPosAcc net (position_opened st) true
  else st.

Definition accumulate (coin_hl_trades : list Trade) : PosAcc :=
  fold_left accumulate_trade coin_hl_trades pos_init.

Definition epsilon : Q := 0.001.

(** [df.loc[df['sz'].abs().idxmax()]]: the first row of greatest [|sz|]. *)
Fixpoint idxmax_from (best : Trade) (l : list Trade) : Trade :=
  match l with
  | [] => best
  | t :: l' =>
      if Qltb (Qabs (tr_sz best)) (Qabs (tr_sz t)) then idxmax_from t l'
      else idxmax_from best l'
  end.

Definition largest_trade (l : list Trade) : option Trade :=
  match l with
  | [] => None
  | t :: l' => Some (idxmax_from t l')
  end.

(** [position_is_open] and [position_side]. *)
Definition position_status (coin_hl_trades : list Trade) (coin_hl_funding : list Funding)
  : bool * string :=
  match largest_trade coin_hl_trades with
  | Some largest =>
      let net := net_position_size (accumulate coin_hl_trades) in
      if Qltb epsilon (Qabs net) then
        (true, if Qltb 0 net then "Long hl" else "Short hl")%string
      else
        (false, if contains "long" (lower (tr_dir largest))
                then "Long hl (closed)" else "Short hl (closed)")%string
  | None =>
      (true, match last coin_hl_funding with
             | Some latest_funding =>
                 if Qltb 0 (fu_sz latest_funding) then "Long hl" else "Short hl"
             | None => ""
             end)%string
  end.

Definition position_is_open (coin_hl_trades : list Trade) (coin_hl_funding : list Funding) : bool :=
  fst (position_status coin_hl_trades coin_hl_funding).

Definition position_side (coin_hl_trades : list Trade) (coin_hl_funding : list Funding) : string :=
  snd (position_status coin_hl_trades coin_hl_funding).

Definition select_open (coin_hl_trades : list Trade) : list Trade :=
  List.filter (fun t => str_contains_nocase "Open" (tr_dir t)) coin_hl_trades.

Definition select_close (coin_hl_trades : list Trade) : list Trade :=
  List.filter (fun t => str_contains_nocase "Close" (tr_dir t)) coin_hl_trades.

(** The weighted price of a selection of trades:
    [(sel['sz'].abs() * sel['px']).sum() / abs(sel['sz'].sum())], when the
    selection has rows and the denominator is positive. *)
Definition weighted_price (sel : list Trade) : option Q :=
  if nonempty sel then
    let total_size := Qabs (Qsum (map tr_sz sel)) in
    if Qltb 0 total_size then
      let total_notional := Qsum (map (fun t => Qabs (tr_sz t) * tr_px t) sel) in
      Some (total_notional / total_size)
    else None
  else None.

Definition entry_price (coin_hl_trades : list Trade) : option Q :=
  if (position_opened (accumulate coin_hl_trades) && nonempty coin_hl_trades)%bool
  then weighted_price (select_open coin_hl_trades)
  else None.

Definition exit_price (coin_hl_trades : list Trade) (coin_hl_funding : list Funding) : option Q :=
  if (position_closed (accumulate coin_hl_trades)
      && negb (position_is_open coin_hl_trades coin_hl_funding)
      && nonempty coin_hl_trades)%bool
  then weighted_price (select_close coin_hl_trades)
  else None.

Definition position_size (coin_hl_trades : list Trade) : Q :=
  if nonempty coin_hl_trades then Qabs (net_position_size (accumulate coin_hl_trades)) else 0.

(** ** Metrics *)

(** The margin assumed for a coin ([if coin in ['LINK', 'LTC']]). *)
Definition notional (coin : string) : Q :=
  if (String.eqb coin "LINK" || String.eqb coin "LTC")%bool then 40 else 20.

Definition percentage_of (coin : string) (pnl : Q) : Q := (pnl / notional coin) * 100.

(** [apr] and [apr_excluding_commission] *)
Definition annualize (percentage duration_hours : Q) : Q :=
  if (Qltb 0 duration_hours && negb (Qeq_bool percentage 0))%bool
  then (percentage / duration_hours) * (365 * 24)
  else 0.

Definition unrecoverable : Q := 999999.

(** [total_funding / duration_hours if duration_hours > 0 else 0] *)
Definition funding_per_hour_of (total_funding duration_hours : Q) : Q :=
  if Qltb 0 duration_hours then total_funding / duration_hours else 0.

Definition days_until_commission_paid
    (total_commission_open total_commission_close total_funding duration_hours : Q) : Q :=
  let total_commission_cost := Qabs (total_commission_open + total_commission_close) in
  if (Qltb 0 total_commission_cost && Qltb 0 total_funding)%bool then
    if Qle_bool total_commission_cost total_funding then
      let funding_per_hour := funding_per_hour_of total_funding duration_hours in
      if Qltb 0 funding_per_hour then
        let hours_to_cover := total_commission_cost / funding_per_hour in
        hours_to_cover / 24
      else 0
    else
      let funding_per_hour := funding_per_hour_of total_funding duration_hours in
      if Qltb 0 funding_per_hour then
        let hours_to_cover := total_commission_cost / funding_per_hour in
        hours_to_cover / 24
      else 999999
  else if (Qltb 0 total_commission_cost && Qle_bool total_funding 0)%bool then 999999
  else if Qeq_bool total_commission_cost 0 then 0
  else 999999.

(** A row of [analysis_results]. *)
Record PerformanceRecord := mkPerf {
  Symbol : string;
  Side : string;
  Entry_Price : option Q;
  Exit_Price : option Q;
  Position_Size : Q;
  Commission_Open : Q;
  Commission_Close : Q;
  Funding_Paid_Received : Q;
  Realized_PnL : Q;
  Percentage : Q;
  Duration_hours : Q;
  APR : Q;
  APR_excluding_commission : Q;
  Days_until_commission_paid : Q
}.

(** ** The analysis loop of [analyze_performance] *)

(** [open_trades] and [close_trades] are locals of [analyze_performance]:
    they are bound only inside two conditionals of the loop body and keep
    their value from one coin to the next. [None] is an unbound name. *)
Record Locals := mkLocals {
  open_trades : option (list Trade);
  close_trades : option (list Trade)
}.

Definition no_locals : Locals := mkLocals None None.

Section Analysis.

Variables start_datetime end_datetime : Z.
(** The three frames after the filter for the target coins. *)
Variable hl_trades_df : list Trade.
Variable hl_funding_df : list Funding.
Variable bb_combined_df : list BBRecord.

Definition coin_hl_trades_of (coin : string) : list Trade :=
  if nonempty hl_trades_df
  then List.filter (fun t => String.eqb (tr_coin t) coin) hl_trades_df
  else [].

Definition coin_hl_funding_of (coin : string) : list Funding :=
  if nonempty hl_funding_df
  then List.filter (fun f => String.eqb (fu_coin f) coin) hl_funding_df
  else [].

(** [None] is [pd.DataFrame()], a frame with no column. *)
Definition coin_bb_data_of (coin : string) : option (list BBRecord) :=
  if nonempty bb_combined_df
  then Some (List.filter (fun r => String.eqb (bb_symbol r) (coin ++ "USDT")) bb_combined_df)
  else None.

Definition frame_len {A} (df : option (list A)) : nat :=
  match df with Some rows => length rows | None => 0 end.

(** Whether the loop body goes past its [continue]. *)
Definition has_data (coin : string) : bool :=
  negb ((length (coin_hl_trades_of coin) =? 0)%nat
        && (length (coin_hl_funding_of coin) =? 0)%nat
        && (frame_len (coin_bb_data_of coin) =? 0)%nat).

Definition duration_hours : Q := inject_Z (end_datetime - start_datetime) / 3600.

(** The body of [for coin in target_coins]. *)
Definition analyze_coin (coin : string) (loc : Locals)
  : Result (Locals * option PerformanceRecord) :=
  let coin_hl_trades := coin_hl_trades_of coin in
  let coin_hl_funding := coin_hl_funding_of coin in
  let coin_bb_data := coin_bb_data_of coin in
  if negb (has_data coin) then Ok (loc, None)
  else
    let acc := accumulate coin_hl_trades in
    let is_open := position_is_open coin_hl_trades coin_hl_funding in
    let side := position_side coin_hl_trades coin_hl_funding in
    let loc :=
      if (position_opened acc && nonempty coin_hl_trades)%bool
      then mkLocals (Some (select_open coin_hl_trades)) (close_trades loc)
      else loc in
    let loc :=
      if (position_closed acc && negb is_open && nonempty coin_hl_trades)%bool
      then mkLocals (open_trades loc) (Some (select_close coin_hl_trades))
      else loc in
    let hl_commission :=
      if is_open then
        Ok (if nonempty coin_hl_trades then - Qsum (map tr_fee coin_hl_trades) else 0, 0)
      else
        match open_trades loc with
        | None => Raise (UnboundLocalError "open_trades")
        | Some open_rows =>
            let hl_commission_open :=
              if nonempty open_rows then - Qsum (map tr_fee open_rows) else 0 in
            match close_trades loc with
            | None => Raise (UnboundLocalError "close_trades")
            | Some close_rows =>
                let hl_commission_close :=
                  if nonempty close_rows then - Qsum (map tr_fee close_rows) else 0 in
                Ok (hl_commission_open, hl_commission_close)
            end
        end in
    match hl_commission with
    | Raise e => Raise e
    | Ok (hl_commission_open, hl_commission_close) =>
        match coin_bb_data with
        | None => Raise (KeyError "type")
        | Some bb_rows =>
            let bb_trades := List.filter (fun r => BBType_eqb (bb_type r) TRADE) bb_rows in
            let bb_commission_open :=
              if nonempty bb_trades then - Qabs (Qsum (map bb_amount bb_trades)) else 0 in
            let total_commission_open := hl_commission_open + bb_commission_open in
            let total_commission_close := hl_commission_close in
            let hl_funding_total :=
              if nonempty coin_hl_funding then Qsum (map fu_payment coin_hl_funding) else 0 in
            let bb_funding_total :=
              if nonempty bb_rows
              then Qsum (map bb_amount
                           (List.filter (fun r => BBType_eqb (bb_type r) FUNDING_FEE) bb_rows))
              else 0 in
            let total_funding := hl_funding_total + bb_funding_total in
            let realized_pnl := total_commission_open + total_commission_close + total_funding in
            let percentage := percentage_of coin realized_pnl in
            let apr := annualize percentage duration_hours in
            let funding_percentage := percentage_of coin total_funding in
            let apr_excluding_commission := annualize funding_percentage duration_hours in
            Ok (loc,
                Some {| Symbol := coin;
                        Side := side;
                        Entry_Price := entry_price coin_hl_trades;
                        Exit_Price := exit_price coin_hl_trades coin_hl_funding;
                        Position_Size := position_size coin_hl_trades;
                        Commission_Open := total_commission_open;
                        Commission_Close := total_commission_close;
                        Funding_Paid_Received := total_funding;
                        Realized_PnL := realized_pnl;
                        Percentage := percentage;
                        Duration_hours := duration_hours;
                        APR := apr;
                        APR_excluding_commission := apr_excluding_commission;
                        Days_until_commission_paid :=
                          days_until_commission_paid total_commission_open
                            total_commission_close total_funding duration_hours |})
        end
    end.

(** [for coin in target_coins: ...; analysis_results.append({...})] *)
Fixpoint analysis_loop (coins : list string) (loc : Locals)
    (analysis_results : list PerformanceRecord) : Result (list PerformanceRecord) :=
  match coins with
  | [] => Ok analysis_results
  | coin :: rest =>
      match analyze_coin coin loc with
      | Raise e => Raise e
      | Ok (loc', None) => analysis_loop rest loc' analysis_results
      | Ok (loc', Some row) => analysis_loop rest loc' (analysis_results ++ [row])
      end
  end.

End Analysis.

(** [df[df[col].isin(values)]], kept as it is when the frame has no row. *)
Definition isin (values : list string) (s : string) : bool :=
  existsb (String.eqb s) values.

(** [analyze_performance] from the three extracted frames on: the filter
    for the target coins, then the loop; the value is [results_df]. *)
Definition analyze_extracted (start_datetime end_datetime : Z) (target_coins : list string)
    (hl_trades_df_raw : list Trade) (hl_funding_df_raw : list Funding)
    (bb_combined_df_raw : list BBRecord) : Result (list PerformanceRecord) :=
  let hl_trades_df := List.filter (fun t => isin target_coins (tr_coin t)) hl_trades_df_raw in
  let hl_funding_df := List.filter (fun f => isin target_coins (fu_coin f)) hl_funding_df_raw in
  let target_bb_symbols := map (fun coin => coin ++ "USDT")%string target_coins in
  let bb_combined_df := List.filter (fun r => isin target_bb_symbols (bb_symbol r)) bb_combined_df_raw in
  analysis_loop start_datetime end_datetime hl_trades_df hl_funding_df bb_combined_df
    target_coins no_locals [].

(** ** Venue A: raw records and identity keys *)

#[local] Instance Q_eq_dec : EqDecision Q.
Proof. solve_decision. Defined.

#[local] Instance Q_countable : Countable Q :=
  inj_countable' (fun q => (Qnum q, Qden q)) (fun p => Qmake p.1 p.2)
                 (fun q => match q with Qmake _ _ => eq_refl end).

(** A fill as the venue sends it; an absent JSON member is [None] and
    gets the default of [fill.get(member, default)]. *)
Record RawFill := mkRawFill {
  rf_time : option Z;
  rf_coin : option string;
  rf_px : option Q;
  rf_sz : option Q;
  rf_dir : option string;
  rf_fee : option Q;
  rf_closedPnl : option Q
}.

(** A funding record as the venue sends it, the members of ['delta']
    flattened. *)
Record RawFunding := mkRawFunding {
  rfu_time : option Z;
  rfu_coin : option string;
  rfu_szi : option Q;
  rfu_usdc : option Q;
  rfu_fundingRate : option Q
}.

Definition get {A} (member : option A) (default : A) : A :=
  match member with Some v => v | None => default end.

(** [trade_id]: the text [time_coin_px_sz_dir]; its five parts stand for
    the text. *)
Definition trade_id (fill : RawFill) : Z * string * Q * Q * string :=
  (get (rf_time fill) 0%Z, get (rf_coin fill) ""%string, get (rf_px fill) 0,
   get (rf_sz fill) 0, get (rf_dir fill) ""%string).

(** [funding_id]: the text [time_coin_szi_usdc]. *)
Definition funding_id (fund : RawFunding) : Z * string * Q * Q :=
  (get (rfu_time fund) 0%Z, get (rfu_coin fund) ""%string, get (rfu_szi fund) 0,
   get (rfu_usdc fund) 0).

(** [datetime.fromtimestamp(ms / 1000).strftime('%Y-%m-%d %H:%M:%S')] *)
Definition seconds_of_ms (ms : Z) : Z := (ms / 1000)%Z.

Definition trade_row (fill : RawFill) : Trade :=
  {| tr_time := seconds_of_ms (get (rf_time fill) 0%Z);
     tr_coin := get (rf_coin fill) ""%string;
     tr_dir := get (rf_dir fill) ""%string;
     tr_px := get (rf_px fill) 0;
     tr_sz := get (rf_sz fill) 0;
     tr_ntl := get (rf_sz fill) 0 * get (rf_px fill) 0;
     tr_fee := get (rf_fee fill) 0;
     tr_closedPnl := get (rf_closedPnl fill) 0 |}.

Definition funding_row (fund : RawFunding) : Funding :=
  {| fu_time := seconds_of_ms (get (rfu_time fund) 0%Z);
     fu_coin := get (rfu_coin fund) ""%string;
     fu_sz := get (rfu_szi fund) 0;
     fu_side := if Qltb 0 (get (rfu_szi fund) 0) then "Long"%string else "Short"%string;
     fu_payment := get (rfu_usdc fund) 0;
     fu_rate := get (rfu_fundingRate fund) 0 |}.

(** ** Venue A: the chunked traversal *)

(** The answer to one [requests.post]: status 200 with its JSON list, or
    another status. *)
Inductive Response (Raw : Type) :=
| Http200 (batch : list Raw)
| HttpError (status_code : Z).
Arguments Http200 {Raw} batch.
Arguments HttpError {Raw} status_code.

(** A request, by its [startTime] and [endTime]. *)
Definition Request : Type := Z * Z.

Definition batch_size_ms : Z := 24 * 60 * 60 * 1000.

(** What an extraction leaves: the frame it returns and the requests it
    issued, in order. *)
Record Extraction (Row : Type) := mkExtraction {
  frame : list Row;
  issued : list Request
}.
Arguments mkExtraction {Row} frame issued.
Arguments frame {Row} e.
Arguments issued {Row} e.

Section Chunked.

Context {Raw Row K : Type} `{Countable K}.
Variable record_id : Raw -> K.
Variable to_row : Raw -> Row.
Variable row_time : Row -> Z.
Variable client : Request -> Response Raw.

(** [seen_*], [*_data] and the requests issued so far. *)
Record LoopState := mkLoop {
  seen : gset K;
  data : list Row;
  requests : list Request
}.

Definition loop_init : LoopState := mkLoop ∅ [] [].

(** [if id not in seen: seen.add(id); data.append({...})] *)
Definition add_record (st : gset K * list Row) (raw : Raw) : gset K * list Row :=
  if decide (record_id raw ∈ st.1) then st
  else ({[record_id raw]} ∪ st.1, st.2 ++ [to_row raw]).

Definition add_batch (st : LoopState) (batch : list Raw) : LoopState :=
  let '(seen', data') := fold_left add_record batch (seen st, data st) in
  mkLoop seen' data' (requests st).

Definition log_request (st : LoopState) (rq : Request) : LoopState :=
  mkLoop (seen st) (data st) (requests st ++ [rq]).

(** [while next_start < end_timestamp: ...]; [None] when the fuel runs
    out before the loop ends. *)
Fixpoint chunk_loop (fuel : nat) (end_timestamp next_start : Z) (st : LoopState)
  : option LoopState :=
  match fuel with
  | O => None
  | S fuel' =>
      if (next_start <? end_timestamp)%Z then
        let batch_end := Z.min (next_start + batch_size_ms) end_timestamp in
        let st := log_request st (next_start, batch_end) in
        match client (next_start, batch_end) with
        | HttpError _ => Some st
        | Http200 [] => chunk_loop fuel' end_timestamp (batch_end + 1)%Z st
        | Http200 batch =>
            chunk_loop fuel' end_timestamp (batch_end + 1)%Z (add_batch st batch)
        end
      else Some st
  end.

(** The client-side filter after the traversal. *)
Definition in_window (start_datetime end_datetime : Z) (row : Row) : bool :=
  ((start_datetime <=? row_time row)%Z && (row_time row <=? end_datetime)%Z)%bool.

(** Rounds that suffice for the chunks of a window: a round moves
    [next_start] by more than [batch_size_ms]. *)
Definition chunk_fuel (start_timestamp end_timestamp : Z) : nat :=
  Z.to_nat ((end_timestamp - start_timestamp) / (batch_size_ms + 1)) + 2.

Definition chunked_extract (start_datetime end_datetime : Z) : option (Extraction Row) :=
  let start_timestamp := (start_datetime * 1000)%Z in
  let end_timestamp := (end_datetime * 1000)%Z in
  match chunk_loop (chunk_fuel start_timestamp end_timestamp) end_timestamp
          start_timestamp loop_init with
  | Some st =>
      Some (mkExtraction (List.filter (in_window start_datetime end_datetime) (data st))
                         (requests st))
  | None => None
  end.

End Chunked.

Definition extract_hyperliquid_trades (client : Request -> Response RawFill)
    (start_datetime end_datetime : Z) : option (Extraction Trade) :=
  chunked_extract trade_id trade_row tr_time client start_datetime end_datetime.

Definition extract_hyperliquid_funding (client : Request -> Response RawFunding)
    (start_datetime end_datetime : Z) : option (Extraction Funding) :=
  chunked_extract funding_id funding_row fu_time client start_datetime end_datetime.

(** ** Venue B: the combined extraction *)

(** A member of a ['list'] of venue B, with the members the extractor
    reads from executions and from closed-PnL records. *)
Record RawBB := mkRawBB {
  rb_symbol : option string;
  rb_execType : option string;
  rb_execTime : option Z;
  rb_execFee : option Q;
  rb_execId : option string;
  rb_orderId : option string;
  rb_side : option string;
  rb_execQty : option Q;
  rb_execPrice : option Q;
  rb_closedPnl : option Q;
  rb_updatedTime : option Z;
  rb_qty : option Q;
  rb_avgEntryPrice : option Q
}.

(** The [params] of a signed request and its endpoint. *)
Record BBRequest := mkBBRequest {
  rq_endpoint : string;
  rq_symbol : option string;
  rq_startTime : Z;
  rq_endTime : Z;
  rq_cursor : option string
}.

(** The ['result'] of an answer: its ['list'] and ['nextPageCursor'] (the
    empty text when absent). [_bb_signed_request] gives [{}] for an HTTP
    error and for a venue error code: that is [None]. *)
Record BBResult := mkBBResult {
  res_list : list RawBB;
  res_nextPageCursor : string
}.

Definition seven_days_ms : Z := 7 * 24 * 60 * 60 * 1000.

Definition execution_row (exec : RawBB) : BBRecord :=
  if String.eqb (get (rb_execType exec) "") "Funding" then
    {| bb_type := FUNDING_FEE;
       bb_time := seconds_of_ms (get (rb_execTime exec) 0%Z);
       bb_symbol := get (rb_symbol exec) "";
       bb_amount := - get (rb_execFee exec) 0;
       bb_asset := "USDT";
       bb_tranId := get (rb_execId exec) "";
       bb_tradeId := "";
       bb_side := "";
       bb_quantity := None;
       bb_price := None;
       bb_realizedPnl := None |}
  else
    {| bb_type := TRADE;
       bb_time := seconds_of_ms (get (rb_execTime exec) 0%Z);
       bb_symbol := get (rb_symbol exec) "";
       bb_amount := Qabs (get (rb_execFee exec) 0);
       bb_asset := "USDT";
       bb_tranId := get (rb_execId exec) "";
       bb_tradeId := get (rb_orderId exec) "";
       bb_side := get (rb_side exec) "";
       bb_quantity := Some (get (rb_execQty exec) 0);
       bb_price := Some (get (rb_execPrice exec) 0);
       bb_realizedPnl := Some (get (rb_closedPnl exec) 0) |}.

Definition closed_pnl_row (pnl : RawBB) : BBRecord :=
  {| bb_type := COMMISSION;
     bb_time := seconds_of_ms (get (rb_updatedTime pnl) 0%Z);
     bb_symbol := get (rb_symbol pnl) "";
     bb_amount := 0;
     bb_asset := "USDT";
     bb_tranId := get (rb_orderId pnl) "";
     bb_tradeId := get (rb_orderId pnl) "";
     bb_side := get (rb_side pnl) "";
     bb_quantity := Some (get (rb_qty pnl) 0);
     bb_price := Some (get (rb_avgEntryPrice pnl) 0);
     bb_realizedPnl := Some (get (rb_closedPnl pnl) 0) |}.

(** [df.sort_values('time')] *)
Fixpoint insert_by_time (r : BBRecord) (l : list BBRecord) : list BBRecord :=
  match l with
  | [] => [r]
  | x :: l' => if (bb_time r <? bb_time x)%Z then r :: l else x :: insert_by_time r l'
  end.

Definition sort_by_time (l : list BBRecord) : list BBRecord :=
  fold_left (fun sorted r => insert_by_time r sorted) l [].

Section BybitExtraction.

(** [self._bb_signed_request(endpoint, params)] *)
Variable bb_client : BBRequest -> option BBResult.

(** [while True:] over the page cursor of one chunk; [handle] is the
    [for] loop over the page. *)
Fixpoint cursor_loop {S : Type} (fuel : nat) (request : option string -> BBRequest)
    (handle : S -> RawBB -> S) (cursor : option string) (st : S) : option S :=
  match fuel with
  | O => None
  | S fuel' =>
      match bb_client (request cursor) with
      | None => Some st
      | Some result =>
          let st := fold_left handle (res_list result) st in
          if String.eqb (res_nextPageCursor result) "" then Some st
          else cursor_loop fuel' request handle (Some (res_nextPageCursor result)) st
      end
  end.

(** [while current_start < end_timestamp:] over the seven-day chunks. *)
Fixpoint bb_chunk_loop {S : Type} (fuel : nat) (endpoint : string) (symbol : option string)
    (handle : S -> RawBB -> S) (end_timestamp current_start : Z) (st : S) : option S :=
  match fuel with
  | O => None
  | S fuel' =>
      if (current_start <? end_timestamp)%Z then
        let current_end := Z.min (current_start + seven_days_ms) end_timestamp in
        match cursor_loop fuel
                (fun cursor => mkBBRequest endpoint symbol current_start current_end cursor)
                handle None st with
        | None => None
        | Some st => bb_chunk_loop fuel' endpoint symbol handle end_timestamp
                       (current_end + 1)%Z st
        end
      else Some st
  end.

(** [for symbol in symbols:] *)
Fixpoint symbol_loop (fuel : nat) (symbols : list string) (start_timestamp end_timestamp : Z)
    (combined_data : list BBRecord) : option (list BBRecord) :=
  match symbols with
  | [] => Some combined_data
  | symbol :: rest =>
      if String.eqb symbol "" then
        symbol_loop fuel rest start_timestamp end_timestamp combined_data
      else
        match bb_chunk_loop fuel "/v5/execution/list" (Some symbol)
                (fun acc exec => acc ++ [execution_row exec])
                end_timestamp start_timestamp combined_data with
        | None => None
        | Some combined_data =>
            symbol_loop fuel rest start_timestamp end_timestamp combined_data
        end
  end.

(** [None] when a loop is still running after [fuel] rounds. *)
Definition extract_bybit_data (fuel : nat) (start_datetime end_datetime : Z)
  : option (list BBRecord) :=
  let start_timestamp := (start_datetime * 1000)%Z in
  let end_timestamp := (end_datetime * 1000)%Z in
  match bb_chunk_loop fuel "/v5/execution/list" None
          (fun (symbols : gset string) exec => {[get (rb_symbol exec) ""]} ∪ symbols)
          end_timestamp start_timestamp ∅ with
  | None => None
  | Some symbols =>
      match symbol_loop fuel (elements symbols) start_timestamp end_timestamp [] with
      | None => None
      | Some combined_data =>
          match bb_chunk_loop fuel "/v5/position/closed-pnl" None
                  (fun acc pnl => acc ++ [closed_pnl_row pnl])
                  end_timestamp start_timestamp combined_data with
          | None => None
          | Some combined_data => Some (sort_by_time combined_data)
          end
      end
  end.

End BybitExtraction.

(** ** The whole run *)

Definition analyze_performance (fuel : nat)
    (fills_client : Request -> Response RawFill)
    (funding_client : Request -> Response RawFunding)
    (bb_client : BBRequest -> option BBResult)
    (start_datetime end_datetime : Z) (target_coins : list string)
  : option (Result (list PerformanceRecord)) :=
  match extract_hyperliquid_trades fills_client start_datetime end_datetime,
        extract_hyperliquid_funding funding_client start_datetime end_datetime,
        extract_bybit_data bb_client fuel start_datetime end_datetime with
  | Some hl_trades, Some hl_funding, Some bb_combined_df_raw =>
      Some (analyze_extracted start_datetime end_datetime target_coins
              (frame hl_trades) (frame hl_funding) bb_combined_df_raw)
  | _, _, _ => None
  end.

(** ** The position claims in their own words *)

Definition tagged_open (t : Trade) : bool := contains "open" (lower (tr_dir t)).
Definition tagged_close (t : Trade) : bool := contains "close" (lower (tr_dir t)).

(** A tag is tested for ['open'] first: a fill counts as closing when its
    tag has ['close'] and not ['open']. *)
Definition classified_close (t : Trade) : bool := (negb (tagged_open t) && tagged_close t)%bool.




(** The size-weighted average price of a selection of fills. *)
Definition size_weighted_average (sel : list Trade) : Q :=
  Qsum (map (fun t => tr_sz t * tr_px t) sel) / Qsum (map tr_sz sel).


(** Whether an extracted frame has a row for the coin. *)
Definition data_found (hl_trades_df_raw : list Trade) (hl_funding_df_raw : list Funding)
    (bb_combined_df_raw : list BBRecord) (coin : string) : bool :=
  (existsb (fun t => String.eqb (tr_coin t) coin) hl_trades_df_raw
   || existsb (fun f => String.eqb (fu_coin f) coin) hl_funding_df_raw
   || existsb (fun r => String.eqb (bb_symbol r) (coin ++ "USDT")) bb_combined_df_raw)%bool.

(** The number of rows of [results_df] for a coin. *)
Definition rows_for (coin : string) (results : list PerformanceRecord) : nat :=
  length (List.filter (fun row => String.eqb (Symbol row) coin) results).

(** A coin whose position is closed has a fill classified as opening and
    one classified as closing. *)
Definition closed_has_both_legs (hl_trades_df : list Trade) (hl_funding_df : list Funding)
    (coin : string) : Prop :=
  let fills := coin_hl_trades_of hl_trades_df coin in
  position_is_open fills (coin_hl_funding_of hl_funding_df coin) = false ->
  existsb tagged_open fills = true /\ existsb classified_close fills = true.

(** ** The traversal as a sequence of requests *)

Definition batch_of {Raw} (r : Response Raw) : list Raw :=
  match r with Http200 batch => batch | HttpError _ => [] end.

(** The records of the answers to a list of requests. *)
Definition received {Raw} (client : Request -> Response Raw) (rqs : list Request) : list Raw :=
  concat (map (fun rq => batch_of (client rq)) rqs).

(** The requests of a traversal that is at [next_start]: chunk after
    chunk up to the end of the window, or up to the first answer that is
    not a 200. *)
Inductive Trace {Raw} (client : Request -> Response Raw) (end_timestamp : Z)
  : Z -> list Request -> Prop :=
| Trace_done next_start :
    (end_timestamp <= next_start)%Z ->
    Trace client end_timestamp next_start []
| Trace_failed next_start status_code :
    (next_start < end_timestamp)%Z ->
    client (next_start, Z.min (next_start + batch_size_ms) end_timestamp)
    = HttpError status_code ->
    Trace client end_timestamp next_start
      [(next_start, Z.min (next_start + batch_size_ms) end_timestamp)]
| Trace_answered next_start batch rest :
    (next_start < end_timestamp)%Z ->
    client (next_start, Z.min (next_start + batch_size_ms) end_timestamp)
    = Http200 batch ->
    Trace client end_timestamp
      (Z.min (next_start + batch_size_ms) end_timestamp + 1)%Z rest ->
    Trace client end_timestamp next_start
      ((next_start, Z.min (next_start + batch_size_ms) end_timestamp) :: rest).

(** The [k]-th chunk of a window, [k] counted from 0. *)
Definition nth_chunk (start_timestamp end_timestamp : Z) (k : Z) : Request :=
  let next_start := (start_timestamp + k * (batch_size_ms + 1))%Z in
  (next_start, Z.min (next_start + batch_size_ms) end_timestamp).

(** C3 in its own words: after a failed request the chunks that follow it
    are still requested. *)
Definition later_chunks_requested {Raw} (client : Request -> Response Raw)
    (start_timestamp end_timestamp : Z) (issued : list Request) : Prop :=
  forall i status_code,
    (0 <= i)%Z ->
    In (nth_chunk start_timestamp end_timestamp i) issued ->
    client (nth_chunk start_timestamp end_timestamp i) = HttpError status_code ->
    forall j, (i < j)%Z ->
      (start_timestamp + j * (batch_size_ms + 1) < end_timestamp)%Z ->
      In (nth_chunk start_timestamp end_timestamp j) issued.

(** What a traversal does with a failed request: no request is issued
    twice, a failed request is the last one issued, and each record of an
    answered request that lies in the window is in the frame (by the first
    record seen with its identity key). *)
Definition stops_at_first_failure {Raw Row K : Type} (record_id : Raw -> K)
    (to_row : Raw -> Row) (row_time : Row -> Z) (client : Request -> Response Raw)
    (start_datetime end_datetime : Z) (out : Extraction Row) : Prop :=
  List.NoDup (issued out) /\
  (forall before rq after status_code,
     issued out = before ++ rq :: after ->
     client rq = HttpError status_code -> after = []) /\
  (forall rq batch raw,
     In rq (issued out) -> client rq = Http200 batch -> In raw batch ->
     in_window row_time start_datetime end_datetime (to_row raw) = true ->
     exists raw', record_id raw' = record_id raw /\ In (to_row raw') (frame out)).

(** The frame of an extraction holds one row for each identity key. *)
Definition one_row_per_key {Raw Row K : Type} (record_id : Raw -> K) (to_row : Raw -> Row)
    (client : Request -> Response Raw) (out : Extraction Row) : Prop :=
  exists kept : list Raw,
    frame out = map to_row kept /\
    List.NoDup (map record_id kept) /\
    (forall raw, In raw kept -> In raw (received client (issued out))).

(** [kept] are the records whose rows make up [data]; their keys are the
    set [seen]. *)
Definition Tracked {Raw Row K : Type} `{Countable K} (record_id : Raw -> K)
    (to_row : Raw -> Row) (sd : gset K * list Row) (kept : list Raw) : Prop :=
  sd.2 = map to_row kept /\
  List.NoDup (map record_id kept) /\
  (forall k, k ∈ sd.1 <-> In k (map record_id kept)).

(** ** Sample inputs *)

Module Samples.

Definition fill (coin dir : string) (px sz fee : Q) : Trade :=
  mkTrade 1755791220 coin dir px sz (sz * px) fee 0.

(** The two closed-position fills and the open-short fill of the
    testable properties. *)
Definition open_long_10 : Trade := fill "ENA" "Open Long" 100 10 1.
Definition close_long_10 : Trade := fill "ENA" "Close Long" 110 10 0.5.
Definition open_short_5 : Trade := fill "ENA" "Open Short" 50 5 0.25.
Definition close_short_2 : Trade := fill "ENA" "Close Short" 40 2 0.1.

(** A spot-style tag: neither ['open'] nor ['close']. *)
Definition buy_3 : Trade := fill "ENA" "Buy" 7 3 0.1.
Definition sell_3 : Trade := fill "ENA" "Sell" 8 3 0.1.

Definition funding_long : Funding := mkFunding 1755792000 "ENA" 27 "Long" 0.02 0.0000125.

Definition bb_trade : BBRecord :=
  mkBB TRADE 1755791221 "ENAUSDT" 0.011 "USDT" "exec-1" "order-1" "Sell"
       (Some 10) (Some 100) (Some 0).

Definition window_start : Z := 1755791220.
Definition window_end : Z := 1756105500.

(** A fill of venue A inside the window. *)
Definition raw_fill : RawFill :=
  mkRawFill (Some 1755800000123%Z) (Some "ENA"%string) (Some 0.7312) (Some 27)
            (Some "Open Long"%string) (Some 0.0089) (Some 0).

(** The first chunk of the window fails, every later one is answered. *)
Definition first_chunk_fails (rq : Request) : Response RawFill :=
  if (fst rq =? window_start * 1000)%Z then HttpError 503 else Http200 [raw_fill].

(** Every chunk is answered with an opening long and an opening short
    fill of the same size. *)
Definition cancelling_opens (rq : Request) : Response RawFill :=
  Http200 [mkRawFill (Some 1755800000123%Z) (Some "ENA"%string) (Some 0.7312) (Some 27)
             (Some "Open Long"%string) (Some 0.0089) (Some 0);
           mkRawFill (Some 1755800000456%Z) (Some "ENA"%string) (Some 0.7320) (Some 27)
             (Some "Open Short"%string) (Some 0.0089) (Some 0)].

(** Venue A has no funding event. *)
Definition no_funding (rq : Request) : Response RawFunding := Http200 [].

(** Every chunk is answered with the same fill. *)
Definition same_fill_everywhere (rq : Request) : Response RawFill := Http200 [raw_fill].

(** An execution of venue B stamped one hour after the window. *)
Definition late_execution : RawBB :=
  mkRawBB (Some "ENAUSDT"%string) (Some "Trade"%string)
          (Some ((window_end + 3600) * 1000)%Z) (Some 0.011) (Some "exec-9"%string)
          (Some "order-9"%string) (Some "Sell"%string) (Some 27) (Some 0.73) None
          None None None.

(** An execution of venue B inside the window. *)
Definition execution : RawBB :=
  mkRawBB (Some "ENAUSDT"%string) (Some "Trade"%string)
          (Some ((window_start + 60) * 1000)%Z) (Some 0.011) (Some "exec-1"%string)
          (Some "order-1"%string) (Some "Sell"%string) (Some 27) (Some 0.73) None
          None None None.

(** Venue B answers every execution request with the late execution
    and has no closed-PnL record. *)
Definition bb_late (rq : BBRequest) : option BBResult :=
  if String.eqb (rq_endpoint rq) "/v5/execution/list"
  then Some (mkBBResult [late_execution] "")
  else Some (mkBBResult [] "").

(** Venue B answers an execution request with two pages that overlap in
    one execution. *)
Definition bb_overlap (rq : BBRequest) : option BBResult :=
  if String.eqb (rq_endpoint rq) "/v5/execution/list" then
    match rq_cursor rq with
    | None => Some (mkBBResult [execution] "page-2")
    | Some _ => Some (mkBBResult [execution] "")
    end
  else Some (mkBBResult [] "").

(** Ten days, two chunks of venue B. *)
Definition ten_days_end : Z := window_start + 10 * 86400.

(** Venue B fails for the first chunk and answers the second one. *)
Definition bb_first_chunk_fails (rq : BBRequest) : option BBResult :=
  if (rq_startTime rq =? window_start * 1000)%Z then None
  else if String.eqb (rq_endpoint rq) "/v5/execution/list"
       then Some (mkBBResult [execution] "")
       else Some (mkBBResult [] "").

End Samples.

(** ** Shapes of the extracted frames *)

(** The requests of a traversal lie in the window, span at most one day
    each, and follow one another with a gap of one millisecond. *)
Definition chunks_in_order (start_timestamp end_timestamp : Z) (rqs : list Request) : Prop :=
  (forall rq, In rq rqs ->
     (start_timestamp <= fst rq < end_timestamp)%Z /\
     (fst rq < snd rq <= end_timestamp)%Z /\
     (snd rq - fst rq <= batch_size_ms)%Z) /\
  (forall rq rest, rqs = rq :: rest -> fst rq = start_timestamp) /\
  (forall before rq1 rq2 after,
     rqs = before ++ rq1 :: rq2 :: after -> fst rq2 = (snd rq1 + 1)%Z).

(** A frame of venue B in the order of [sort_values('time')]. *)
Fixpoint sorted_by_time (l : list BBRecord) : Prop :=
  match l with
  | [] => True
  | r :: l' => (forall x, In x l' -> (bb_time r <= bb_time x)%Z) /\ sorted_by_time l'
  end.

(** What the three [append] calls of venue B give a row. *)
Definition bb_row_shape (r : BBRecord) : Prop :=
  bb_asset r = "USDT"%string /\
  match bb_type r with
  | FUNDING_FEE =>
      bb_tradeId r = ""%string /\ bb_side r = ""%string /\ bb_quantity r = None /\
      bb_price r = None /\ bb_realizedPnl r = None
  | TRADE => 0 <= bb_amount r /\ bb_quantity r <> None /\ bb_price r <> None
  | COMMISSION => bb_amount r = 0 /\ bb_tranId r = bb_tradeId r
  end.

(** An answer of venue B that ends the pages of its chunk: a failure, or
    a result with no cursor to a next page. *)
Definition last_page (answer : option BBResult) : Prop :=
  match answer with
  | None => True
  | Some result => res_nextPageCursor result = ""%string
  end.

(** ** Further sample inputs *)

Module MoreSamples.

(** Venue B always names a next page. *)
Definition endless_pages (rq : BBRequest) : option BBResult :=
  Some (mkBBResult [] "next").

(** Venue B fails every request. *)
Definition bb_down (rq : BBRequest) : option BBResult := None.

End MoreSamples.

(** ** Shapes of the result rows *)

Definition closed_side (side : string) : Prop :=
  side = "Long hl (closed)"%string \/ side = "Short hl (closed)"%string.

(** A result row adds up, its size is not negative, and only a row with a
    closed side has an exit price or a close commission. *)
Definition row_consistent (row : PerformanceRecord) : Prop :=
  Realized_PnL row
  = Commission_Open row + Commission_Close row + Funding_Paid_Received row /\
  0 <= Position_Size row /\
  (closed_side (Side row) \/ (Exit_Price row = None /\ Commission_Close row = 0)).

(** Commissions are costs: they and what they take from the funding
    income are never positive. *)
Definition commissions_are_costs (row : PerformanceRecord) : Prop :=
  Commission_Open row <= 0 /\
  Commission_Close row <= 0 /\
  Realized_PnL row <= Funding_Paid_Received row /\
  APR row <= APR_excluding_commission row.

(** The locals hold trades with fees that are not negative. *)
Definition locals_fees_nonneg (loc : Locals) : Prop :=
  (forall rows, open_trades loc = Some rows -> forall t, In t rows -> 0 <= tr_fee t) /\
  (forall rows, close_trades loc = Some rows -> forall t, In t rows -> 0 <= tr_fee t).

(** The position size of a row against its side: at most 0.001 on a
    closed side, and 0 (no fill) or more than 0.001 on any other. *)
Definition size_matches_side (row : PerformanceRecord) : Prop :=
  (closed_side (Side row) -> Position_Size row <= epsilon) /\
  (~ closed_side (Side row) -> Position_Size row = 0 \/ epsilon < Position_Size row).

(** The row of a coin without a fill: a side that is not a closed one, no
    price, no size and no close commission. *)
Definition row_without_fills (row : PerformanceRecord) : Prop :=
  (Side row = "Long hl" \/ Side row = "Short hl" \/ Side row = "")%string /\
  Entry_Price row = None /\ Exit_Price row = None /\
  Position_Size row = 0 /\ Commission_Close row = 0.

(** * Properties *)

(** ** Numbers and sums *)

Lemma Qltb_lt (x y : Q) : Qltb x y = true <-> x < y.
Proof.
  unfold Qltb. rewrite negb_true_iff. split; intros Hxy.
  - apply Qnot_le_lt. intros Hle. apply Qle_bool_iff in Hle. congruence.
  - destruct (Qle_bool y x) eqn:E; [|reflexivity].
    apply Qle_bool_iff in E. lra.
Qed.

Lemma Qltb_ge (x y : Q) : Qltb x y = false <-> y <= x.
Proof. unfold Qltb. rewrite negb_false_iff. apply Qle_bool_iff. Qed.

#[local] Instance Qltb_proper : Proper (Qeq ==> Qeq ==> eq) Qltb.
Proof. intros x x' Hx y y' Hy. unfold Qltb. now rewrite Hx, Hy. Qed.


Lemma Qsum_map_nonneg {A} (f : A -> Q) (l : list A) :
  (forall x, In x l -> 0 <= f x) -> 0 <= Qsum (map f l).
Proof.
  induction l as [|x l IH]; simpl; intros Hf.
  - lra.
  - assert (0 <= f x) by (apply Hf; now left).
    assert (0 <= Qsum (map f l)) by (apply IH; intros; apply Hf; now right).
    lra.
Qed.

Lemma Qsum_map_ext {A} (f g : A -> Q) (l : list A) :
  (forall x, In x l -> f x == g x) -> Qsum (map f l) == Qsum (map g l).
Proof.
  induction l as [|x l IH]; simpl; intros Hfg.
  - reflexivity.
  - rewrite (Hfg x) by now left. rewrite IH; [reflexivity|].
    intros; apply Hfg; now right.
Qed.

(** ** The accumulation loop *)


Lemma accumulate_trade_opened (st : PosAcc) (t : Trade) :
  position_opened (accumulate_trade st t) = (position_opened st || tagged_open t)%bool.
Proof.
  unfold accumulate_trade, tagged_open.
  destruct (contains "open" (lower (tr_dir t))); simpl.
  - now rewrite orb_true_r.
  - destruct (contains "close" _); simpl; now rewrite orb_false_r.
Qed.

Lemma accumulate_trade_closed (st : PosAcc) (t : Trade) :
  position_closed (accumulate_trade st t) = (position_closed st || classified_close t)%bool.
Proof.
  unfold accumulate_trade, classified_close, tagged_open, tagged_close.
  destruct (contains "open" (lower (tr_dir t))); simpl.
  - now rewrite orb_false_r.
  - destruct (contains "close" _); simpl.
    + now rewrite orb_true_r.
    + now rewrite orb_false_r.
Qed.


Lemma fold_accumulate_opened (l : list Trade) (st : PosAcc) :
  position_opened (fold_left accumulate_trade l st)
  = (position_opened st || existsb tagged_open l)%bool.
Proof.
  revert st. induction l as [|t l IH]; intros st; simpl.
  - now rewrite orb_false_r.
  - rewrite IH, accumulate_trade_opened. now rewrite orb_assoc.
Qed.

Lemma fold_accumulate_closed (l : list Trade) (st : PosAcc) :
  position_closed (fold_left accumulate_trade l st)
  = (position_closed st || existsb classified_close l)%bool.
Proof.
  revert st. induction l as [|t l IH]; intros st; simpl.
  - now rewrite orb_false_r.
  - rewrite IH, accumulate_trade_closed. now rewrite orb_assoc.
Qed.


Lemma accumulate_opened (l : list Trade) :
  position_opened (accumulate l) = existsb tagged_open l.
Proof. unfold accumulate. now rewrite fold_accumulate_opened. Qed.

Lemma accumulate_closed (l : list Trade) :
  position_closed (accumulate l) = existsb classified_close l.
Proof. unfold accumulate. now rewrite fold_accumulate_closed. Qed.


Lemma position_is_open_nonempty (t : Trade) (l : list Trade) (fu : list Funding) :
  position_is_open (t :: l) fu
  = Qltb epsilon (Qabs (net_position_size (accumulate (t :: l)))).
Proof.
  unfold position_is_open, position_status. simpl largest_trade. cbv iota beta.
  now destruct (Qltb epsilon _).
Qed.

(** ** Position status *)

(** The spec's closed-position example: net 0, closed, side from the
    largest fill, entry 100 and exit 110. *)
Example closed_position_detection :
  let fills := [Samples.open_long_10; Samples.close_long_10] in
  net_position_size (accumulate fills) == 0 /\
  position_status fills [] = (false, "Long hl (closed)"%string) /\
  oQeq (entry_price fills) (Some 100) /\
  oQeq (exit_price fills []) (Some 110).
Proof. vm_compute. repeat split; intros; discriminate. Qed.

(** The spec's open-position example: net -5, open, short, entry 50 and no
    exit price. *)
Example open_position_detection :
  let fills := [Samples.open_short_5] in
  net_position_size (accumulate fills) == -5 /\
  position_status fills [] = (true, "Short hl"%string) /\
  oQeq (entry_price fills) (Some 50) /\
  exit_price fills [] = None.
Proof. vm_compute. repeat split; intros; discriminate. Qed.

(** A tag with both words is an opening fill only. *)
Example open_is_tested_before_close :
  net_position_size (accumulate [Samples.fill "ENA" "Open/Close Long" 1 4 0]) == 4.
Proof. vm_compute. reflexivity. Qed.




(** ** Order of the fills *)










(** ** Exit price *)

Lemma weighted_price_average (sel : list Trade) (p : Q) :
  (forall t, In t sel -> 0 <= tr_sz t) ->
  weighted_price sel = Some p -> p == size_weighted_average sel.
Proof.
  intros Hsz. unfold weighted_price, size_weighted_average.
  destruct (nonempty sel); [|discriminate].
  destruct (Qltb 0 _); [|discriminate].
  intros [= <-].
  assert (Hsum : 0 <= Qsum (map tr_sz sel)) by now apply Qsum_map_nonneg.
  rewrite (Qabs_pos _ Hsum).
  rewrite (Qsum_map_ext (fun t => Qabs (tr_sz t) * tr_px t) (fun t => tr_sz t * tr_px t)).
  - reflexivity.
  - intros t Ht. now rewrite (Qabs_pos _ (Hsz t Ht)).
Qed.

Lemma In_filter_In {A} (p : A -> bool) (l : list A) (x : A) :
  In x (List.filter p l) -> In x l.
Proof. intros Hin. now apply filter_In in Hin. Qed.

(** C6: the exit price is the size-weighted average price of the fills
    tagged 'close', and only a closed position has one: while the position
    is open there is none, whatever closing fills exist; a closed position
    with a closing fill and a positive closed size has one. *)
Theorem exit_price_only_when_closed (fills : list Trade) (fu : list Funding) :
  (forall t, In t fills -> 0 <= tr_sz t) ->
  (position_is_open fills fu = true -> exit_price fills fu = None) /\
  (forall p, exit_price fills fu = Some p ->
     Qabs (net_position_size (accumulate fills)) <= epsilon /\
     p == size_weighted_average (List.filter tagged_close fills)) /\
  (position_is_open fills fu = false ->
   existsb classified_close fills = true ->
   0 < Qsum (map tr_sz (List.filter tagged_close fills)) ->
   exists p, exit_price fills fu = Some p).
Proof.
  intros Hsz. split; [|split].
  - intros Hopen. unfold exit_price. rewrite Hopen. simpl.
    now rewrite andb_false_r.
  - intros p. unfold exit_price.
    destruct (position_closed (accumulate fills)); simpl; [|discriminate].
    destruct (position_is_open fills fu) eqn:Hopen; simpl; [discriminate|].
    destruct fills as [|t l]; simpl nonempty; cbv iota; [discriminate|].
    intros Hp. split.
    + rewrite position_is_open_nonempty in Hopen. now apply Qltb_ge in Hopen.
    + apply weighted_price_average in Hp; [exact Hp|].
      intros x Hx. apply Hsz. now apply In_filter_In in Hx.
  - intros Hclosed Hleg Hpos. unfold exit_price.
    rewrite accumulate_closed, Hleg, Hclosed.
    destruct fills as [|t l]; [discriminate Hleg|].
    cbn [negb andb nonempty]. unfold weighted_price.
    change (select_close (t :: l)) with (List.filter tagged_close (t :: l)).
    destruct (List.filter tagged_close (t :: l)) as [|c sel] eqn:Hsel.
    + simpl in Hpos. lra.
    + cbn [nonempty].
      assert (Hlt : Qltb 0 (Qabs (Qsum (map tr_sz (c :: sel)))) = true).
      { apply Qltb_lt. rewrite Qabs_pos; lra. }
      rewrite Hlt. eauto.
Qed.

Lemma exit_price_only_when_closed_witness :
  (forall t, In t [Samples.open_long_10; Samples.close_long_10] -> 0 <= tr_sz t) /\
  exists p, exit_price [Samples.open_long_10; Samples.close_long_10] [] = Some p /\
            p == size_weighted_average [Samples.close_long_10].
Proof.
  assert (Hsz : forall t, In t [Samples.open_long_10; Samples.close_long_10] -> 0 <= tr_sz t).
  { intros t [<-|[<-|[]]]; vm_compute; discriminate. }
  split; [exact Hsz|].
  destruct (exit_price [Samples.open_long_10; Samples.close_long_10] []) as [p|] eqn:E;
    [|vm_compute in E; discriminate E].
  exists p. split; [reflexivity|].
  apply (proj1 (proj2 (exit_price_only_when_closed _ [] Hsz)) p E).
Defined.

(** A partly closed position that is still open has an entry price and no
    exit price. *)
Example partial_close_has_no_exit_price :
  let fills := [Samples.open_short_5; Samples.close_short_2] in
  position_is_open fills [] = true /\
  List.filter tagged_close fills = [Samples.close_short_2] /\
  oQeq (entry_price fills) (Some 50) /\
  exit_price fills [] = None.
Proof. vm_compute. repeat split; intros; discriminate. Qed.

(** ** Breakeven days *)

Lemma funding_per_hour_of_pos (total_funding duration_hours : Q) :
  0 < total_funding ->
  (0 < funding_per_hour_of total_funding duration_hours <-> 0 < duration_hours).
Proof.
  intros Hf. unfold funding_per_hour_of.
  destruct (Qltb 0 duration_hours) eqn:E.
  - apply Qltb_lt in E. split; [intros _; exact E|intros _].
    unfold Qdiv. apply Qmult_lt_0_compat; [exact Hf|]. now apply Qinv_lt_0_compat.
  - apply Qltb_ge in E. split; intros Hlt; lra.
Qed.

(** The spec's sentinel example: cost 5, funding -2. *)
Example breakeven_sentinel_example :
  days_until_commission_paid (-5) 0 (-2) 24 = unrecoverable.
Proof. reflexivity. Qed.

(** C7, the claim as stated fails: with a commission cost of 5, a funding
    total of 2 and a window of no length, funding per hour is 0 and the
    result is the sentinel, not 0. *)
Lemma breakeven_zero_duration_not_zero :
  0 < Qabs (-5 + 0) /\ 0 < 2 /\ funding_per_hour_of 2 0 <= 0 /\
  ~ days_until_commission_paid (-5) 0 2 0 == 0.
Proof. vm_compute. repeat split; intros; discriminate. Qed.

(** C7, as amended: with a positive commission cost and a positive funding
    total, the days are (cost / funding-per-hour) / 24 when funding per
    hour is positive; when it is not (the window has no positive length)
    they are 0 if funding covers the cost and the sentinel 999999 if it
    does not. *)
Theorem breakeven_positive_funding
    (commission_open commission_close total_funding duration_hours : Q) :
  let cost := Qabs (commission_open + commission_close) in
  let per_hour := funding_per_hour_of total_funding duration_hours in
  let days := days_until_commission_paid commission_open commission_close
                total_funding duration_hours in
  0 < cost -> 0 < total_funding ->
  (0 < per_hour -> days = (cost / per_hour) / 24) /\
  (per_hour <= 0 -> cost <= total_funding -> days = 0) /\
  (per_hour <= 0 -> total_funding < cost -> days = unrecoverable) /\
  (per_hour <= 0 <-> duration_hours <= 0).
Proof.
  intros cost per_hour days Hcost Hfund.
  assert (Hdays : days = if Qle_bool cost total_funding
                         then if Qltb 0 per_hour then (cost / per_hour) / 24 else 0
                         else if Qltb 0 per_hour then (cost / per_hour) / 24 else 999999).
  { subst days. unfold days_until_commission_paid. fold cost. fold per_hour.
    apply Qltb_lt in Hcost, Hfund. now rewrite Hcost, Hfund. }
  rewrite Hdays. split; [|split; [|split; [|split]]].
  - intros Hp. apply Qltb_lt in Hp. rewrite Hp. now destruct (Qle_bool _ _).
  - intros Hp Hle. apply Qltb_ge in Hp. apply Qle_bool_iff in Hle. now rewrite Hp, Hle.
  - intros Hp Hlt. apply Qltb_ge in Hp. rewrite Hp.
    destruct (Qle_bool cost total_funding) eqn:E; [|reflexivity].
    apply Qle_bool_iff in E. lra.
  - intros Hp. destruct (Qlt_le_dec 0 duration_hours) as [Hd|Hd]; [|exact Hd].
    apply (funding_per_hour_of_pos total_funding duration_hours Hfund) in Hd.
    fold per_hour in Hd. lra.
  - intros Hd. destruct (Qlt_le_dec 0 per_hour) as [Hp|Hp]; [|exact Hp].
    apply (funding_per_hour_of_pos total_funding duration_hours Hfund) in Hp. lra.
Qed.

Lemma breakeven_positive_funding_witness :
  0 < Qabs (-5 + 0) /\ 0 < 2 /\ 0 < funding_per_hour_of 2 48 /\
  days_until_commission_paid (-5) 0 2 48 == 5.
Proof.
  assert (Hc : 0 < Qabs (-5 + 0)) by (vm_compute; reflexivity).
  assert (Hf : 0 < 2) by (vm_compute; reflexivity).
  assert (Hp : 0 < funding_per_hour_of 2 48) by (vm_compute; reflexivity).
  split; [exact Hc|split; [exact Hf|split; [exact Hp|]]].
  rewrite (proj1 (breakeven_positive_funding (-5) 0 2 48 Hc Hf) Hp).
  vm_compute. reflexivity.
Defined.

(** C8: a positive commission cost with a funding total that is not
    positive gives the sentinel 999999, and a commission cost of 0 gives 0
    days. *)
Theorem breakeven_sentinel_and_zero
    (commission_open commission_close total_funding duration_hours : Q) :
  let cost := Qabs (commission_open + commission_close) in
  let days := days_until_commission_paid commission_open commission_close
                total_funding duration_hours in
  (0 < cost -> total_funding <= 0 -> days = unrecoverable) /\
  (cost == 0 -> days = 0).
Proof.
  intros cost days. subst days. unfold days_until_commission_paid. fold cost. split.
  - intros Hcost Hfund.
    assert (Hf : Qltb 0 total_funding = false) by now apply Qltb_ge.
    apply Qltb_lt in Hcost. apply Qle_bool_iff in Hfund.
    now rewrite Hcost, Hf, Hfund.
  - intros Hzero.
    assert (Hc : Qltb 0 cost = false) by (apply Qltb_ge; lra).
    apply Qeq_bool_iff in Hzero. now rewrite Hc, Hzero.
Qed.

Lemma breakeven_sentinel_and_zero_witness :
  (0 < Qabs (-5 + 0) /\ -2 <= 0 /\
   days_until_commission_paid (-5) 0 (-2) 24 = unrecoverable) /\
  (Qabs (0 + 0) == 0 /\ days_until_commission_paid 0 0 3 24 = 0).
Proof.
  assert (Hc : 0 < Qabs (-5 + 0)) by (vm_compute; reflexivity).
  assert (Hf : -2 <= 0) by (vm_compute; discriminate).
  assert (Hz : Qabs (0 + 0) == 0) by (vm_compute; reflexivity).
  split; [split; [exact Hc|split; [exact Hf|]]|split; [exact Hz|]].
  - exact (proj1 (breakeven_sentinel_and_zero (-5) 0 (-2) 24) Hc Hf).
  - exact (proj2 (breakeven_sentinel_and_zero 0 0 3 24) Hz).
Defined.

(** ** The analysis loop *)

Lemma filter_filter_implied {A} (p q : A -> bool) (l : list A) :
  (forall x, p x = true -> q x = true) ->
  List.filter p (List.filter q l) = List.filter p l.
Proof.
  intros Hpq. induction l as [|x l IH]; simpl; [reflexivity|].
  destruct (q x) eqn:Eq; simpl.
  - now rewrite IH.
  - destruct (p x) eqn:Ep; [|exact IH].
    apply Hpq in Ep. congruence.
Qed.

Lemma filter_guarded {A} (p : A -> bool) (l : list A) :
  (if nonempty l then List.filter p l else []) = List.filter p l.
Proof. now destruct l. Qed.

Lemma length_filter_zero {A} (p : A -> bool) (l : list A) :
  (length (List.filter p l) =? 0)%nat = negb (existsb p l).
Proof.
  induction l as [|x l IH]; simpl; [reflexivity|].
  destruct (p x); simpl; [reflexivity|exact IH].
Qed.

Lemma existsb_filter_implied {A} (p q : A -> bool) (l : list A) :
  (forall x, p x = true -> q x = true) ->
  existsb p (List.filter q l) = existsb p l.
Proof.
  intros Hpq. induction l as [|x l IH]; simpl; [reflexivity|].
  destruct (q x) eqn:Eq; simpl.
  - now rewrite IH.
  - destruct (p x) eqn:Ep; [|exact IH].
    apply Hpq in Ep. congruence.
Qed.

Lemma isin_In (values : list string) (s : string) : isin values s = true <-> In s values.
Proof.
  unfold isin. rewrite existsb_exists. split.
  - intros (x & Hx & Heq). apply String.eqb_eq in Heq. now subst.
  - intros Hin. exists s. split; [exact Hin|apply String.eqb_refl].
Qed.

Section AnalysisFacts.

Variables start_datetime end_datetime : Z.
Variable hl_trades_df : list Trade.
Variable hl_funding_df : list Funding.
Variable bb_combined_df : list BBRecord.

Let analyze_coin' := analyze_coin start_datetime end_datetime hl_trades_df hl_funding_df
                       bb_combined_df.
Let has_data' := has_data hl_trades_df hl_funding_df bb_combined_df.

Lemma analyze_coin_row (coin : string) (loc loc' : Locals) (row : option PerformanceRecord) :
  analyze_coin' coin loc = Ok (loc', row) ->
  match row with
  | Some r => Symbol r = coin /\ has_data' coin = true
  | None => has_data' coin = false
  end.
Proof.
  subst analyze_coin' has_data'. unfold analyze_coin.
  destruct (has_data _ _ _ coin); simpl.
  - destruct (position_is_open _ _).
    + destruct (coin_bb_data_of _ _); [|discriminate]. intros [= _ <-]. now split.
    + destruct (open_trades _); [|discriminate].
      destruct (close_trades _); [|discriminate].
      destruct (coin_bb_data_of _ _); [|discriminate]. intros [= _ <-]. now split.
  - intros [= _ <-]. reflexivity.
Qed.

Lemma analysis_loop_symbols (coins : list string) (loc : Locals)
    (acc results : list PerformanceRecord) :
  analysis_loop start_datetime end_datetime hl_trades_df hl_funding_df bb_combined_df
    coins loc acc = Ok results ->
  map Symbol results = map Symbol acc ++ List.filter has_data' coins.
Proof.
  revert loc acc. induction coins as [|coin coins IH]; intros loc acc; simpl.
  - intros [= <-]. now rewrite app_nil_r.
  - destruct (analyze_coin _ _ _ _ _ coin loc) as [[loc' row]|e] eqn:E; [|discriminate].
    apply analyze_coin_row in E. destruct row as [r|].
    + destruct E as [Hsym Hdata]. intros Hloop. apply IH in Hloop.
      rewrite Hloop, Hdata, map_app. simpl. rewrite Hsym, <- app_assoc. reflexivity.
    + intros Hloop. apply IH in Hloop. now rewrite Hloop, E.
Qed.

End AnalysisFacts.

Lemma has_data_found (targets : list string) (trades : list Trade) (funding : list Funding)
    (bb : list BBRecord) (coin : string) :
  In coin targets ->
  has_data (List.filter (fun t => isin targets (tr_coin t)) trades)
           (List.filter (fun f => isin targets (fu_coin f)) funding)
           (List.filter (fun r => isin (map (fun c => c ++ "USDT")%string targets) (bb_symbol r)) bb)
           coin
  = data_found trades funding bb coin.
Proof.
  intros Hin. unfold has_data, data_found, coin_hl_trades_of, coin_hl_funding_of,
    coin_bb_data_of.
  rewrite !filter_guarded, !length_filter_zero.
  rewrite (existsb_filter_implied (fun t => String.eqb (tr_coin t) coin)).
  2:{ intros t Ht. apply String.eqb_eq in Ht. rewrite Ht. now apply isin_In. }
  rewrite (existsb_filter_implied (fun f => String.eqb (fu_coin f) coin)).
  2:{ intros f Hf. apply String.eqb_eq in Hf. rewrite Hf. now apply isin_In. }
  assert (Hbb : (frame_len
                   (if nonempty (List.filter (fun r => isin (map (fun c => c ++ "USDT")%string targets)
                                                  (bb_symbol r)) bb)
                    then Some (List.filter (fun r => String.eqb (bb_symbol r) (coin ++ "USDT"))
                                 (List.filter (fun r => isin (map (fun c => c ++ "USDT")%string targets)
                                                 (bb_symbol r)) bb))
                    else None) =? 0)%nat
                = negb (existsb (fun r => String.eqb (bb_symbol r) (coin ++ "USDT")) bb)).
  { rewrite <- (existsb_filter_implied (fun r => String.eqb (bb_symbol r) (coin ++ "USDT"))
                 (fun r => isin (map (fun c => c ++ "USDT")%string targets) (bb_symbol r)) bb).
    2:{ intros r Hr. apply String.eqb_eq in Hr. rewrite Hr. apply isin_In.
        apply in_map_iff. now exists coin. }
    destruct (List.filter _ bb) as [|r l] eqn:E; [reflexivity|].
    unfold nonempty, frame_len. apply length_filter_zero. }
  rewrite Hbb.
  now destruct (existsb _ trades), (existsb _ funding), (existsb _ bb).
Qed.

Lemma rows_for_count (coin : string) (results : list PerformanceRecord) :
  rows_for coin results = count_occ string_dec (map Symbol results) coin.
Proof.
  unfold rows_for. induction results as [|r l IH]; simpl; [reflexivity|].
  destruct (string_dec (Symbol r) coin) as [Heq|Hne].
  - apply String.eqb_eq in Heq. rewrite Heq. simpl. now rewrite IH.
  - apply String.eqb_neq in Hne. now rewrite Hne.
Qed.

Lemma count_occ_filter (p : string -> bool) (l : list string) (x : string) :
  count_occ string_dec (List.filter p l) x = if p x then count_occ string_dec l x else 0%nat.
Proof.
  induction l as [|y l IH]; simpl.
  - now destruct (p x).
  - destruct (p y) eqn:Ey; simpl.
    + destruct (string_dec y x) as [->|Hne]; rewrite IH; [|reflexivity].
      now rewrite Ey.
    + destruct (string_dec y x) as [->|Hne]; rewrite IH; [|reflexivity].
      now rewrite Ey.
Qed.

(** The symbols of the rows are the target coins with data, in order. *)
Lemma analyze_extracted_symbols (start_datetime end_datetime : Z) (targets : list string)
    (trades : list Trade) (funding : list Funding) (bb : list BBRecord)
    (results : list PerformanceRecord) :
  analyze_extracted start_datetime end_datetime targets trades funding bb = Ok results ->
  map Symbol results = List.filter (data_found trades funding bb) targets.
Proof.
  unfold analyze_extracted. intros Hrun. apply analysis_loop_symbols in Hrun.
  rewrite Hrun. simpl. apply filter_ext_in. intros coin Hin. now apply has_data_found.
Qed.

(** C9, the claim as stated fails: a target coin for which nothing was
    extracted gets no row. *)
Lemma coin_without_data_has_no_row :
  analyze_extracted 1755791220 1756105500 ["BTC"%string] [] [] [] = Ok [] /\
  rows_for "BTC" [] <> 1%nat.
Proof. split; [reflexivity|discriminate]. Qed.

(** C9, as amended: when the run returns its results for a target list
    without repetition, a target coin has exactly one row if a fill, a
    funding event or a venue-B record was extracted for it, and no row
    otherwise. *)
Theorem one_row_per_coin_with_data (start_datetime end_datetime : Z) (targets : list string)
    (trades : list Trade) (funding : list Funding) (bb : list BBRecord)
    (results : list PerformanceRecord) :
  List.NoDup targets ->
  analyze_extracted start_datetime end_datetime targets trades funding bb = Ok results ->
  forall coin, In coin targets ->
    rows_for coin results = if data_found trades funding bb coin then 1%nat else 0%nat.
Proof.
  intros Hnd Hrun coin Hin.
  rewrite rows_for_count, (analyze_extracted_symbols _ _ _ _ _ _ _ Hrun), count_occ_filter.
  destruct (data_found trades funding bb coin); [|reflexivity].
  now apply NoDup_count_occ'.
Qed.

Lemma one_row_per_coin_with_data_witness :
  exists results,
    analyze_extracted Samples.window_start Samples.window_end ["ENA"; "SOL"]%string
      [Samples.open_long_10; Samples.close_long_10] [] [Samples.bb_trade] = Ok results /\
    rows_for "ENA" results = 1%nat /\ rows_for "SOL" results = 0%nat.
Proof.
  destruct (analyze_extracted Samples.window_start Samples.window_end ["ENA"; "SOL"]%string
              [Samples.open_long_10; Samples.close_long_10] [] [Samples.bb_trade])
    as [results|e] eqn:E; [|vm_compute in E; discriminate E].
  assert (Hnd : List.NoDup ["ENA"; "SOL"]%string).
  { constructor; [simpl; intros [H|[]]; discriminate H|].
    constructor; [simpl; intros []|constructor]. }
  exists results. split; [reflexivity|]. split.
  - apply (one_row_per_coin_with_data _ _ _ _ _ _ _ Hnd E "ENA"%string). now left.
  - apply (one_row_per_coin_with_data _ _ _ _ _ _ _ Hnd E "SOL"%string). right. now left.
Defined.

(** ** Unbound locals in the commission split *)

Lemma position_is_open_closed (fills : list Trade) (fu : list Funding) :
  fills <> [] ->
  Qabs (net_position_size (accumulate fills)) <= epsilon ->
  position_is_open fills fu = false.
Proof.
  intros Hne Hnet. destruct fills as [|t l]; [congruence|].
  rewrite position_is_open_nonempty. now apply Qltb_ge.
Qed.

Lemma existsb_weaken {A} (p q : A -> bool) (l : list A) :
  (forall x, p x = true -> q x = true) -> existsb q l = false -> existsb p l = false.
Proof.
  intros Hpq Hq. destruct (existsb p l) eqn:Ep; [|reflexivity].
  apply existsb_exists in Ep. destruct Ep as (x & Hx & Hp).
  assert (existsb q l = true) by (apply existsb_exists; exists x; auto).
  congruence.
Qed.

(** C10: when the first target coin has fills that net to within 0.001 and
    none of them is tagged 'open', or none is tagged 'close', the
    commission split reads a local that was never bound and the run ends
    with that error instead of a result. *)
Theorem closed_without_open_or_close_fill_aborts (start_datetime end_datetime : Z)
    (coin : string) (rest : list string) (trades : list Trade) (funding : list Funding)
    (bb : list BBRecord) :
  let fills := List.filter (fun t => String.eqb (tr_coin t) coin) trades in
  fills <> [] ->
  Qabs (net_position_size (accumulate fills)) <= epsilon ->
  existsb tagged_open fills = false \/ existsb tagged_close fills = false ->
  exists name,
    analyze_extracted start_datetime end_datetime (coin :: rest) trades funding bb
    = Raise (UnboundLocalError name).
Proof.
  intros fills Hne Hnet Htags.
  unfold analyze_extracted. cbn [analysis_loop].
  set (hl := List.filter (fun t => isin (coin :: rest) (tr_coin t)) trades).
  set (fu := List.filter _ funding). set (bbf := List.filter _ bb).
  assert (Hfills : coin_hl_trades_of hl coin = fills).
  { unfold coin_hl_trades_of. rewrite filter_guarded. subst hl fills.
    apply filter_filter_implied. intros t Ht. apply String.eqb_eq in Ht.
    rewrite Ht. apply isin_In. now left. }
  assert (Hdata : has_data hl fu bbf coin = true).
  { unfold has_data. rewrite Hfills. destruct fills; [congruence|reflexivity]. }
  assert (Hclosed : position_is_open fills (coin_hl_funding_of fu coin) = false)
    by now apply position_is_open_closed.
  unfold analyze_coin. rewrite Hdata, Hfills, Hclosed. cbn [negb andb].
  rewrite accumulate_opened, accumulate_closed.
  destruct (existsb tagged_open fills) eqn:Eo.
  - destruct Htags as [Ho|Hc]; [discriminate|].
    rewrite (existsb_weaken classified_close tagged_close fills); [|
      intros x Hx; unfold classified_close in Hx; now apply andb_true_iff in Hx | exact Hc].
    destruct fills; [congruence|]. cbn. eauto.
  - destruct (existsb classified_close fills && true && nonempty fills)%bool; cbn; eauto.
Qed.

Lemma closed_without_open_or_close_fill_aborts_witness :
  let trades := [Samples.fill "ENA" "Open Long" 100 10 1;
                 Samples.fill "ENA" "Open Short" 101 10 1] in
  List.filter (fun t => String.eqb (tr_coin t) "ENA") trades <> [] /\
  existsb tagged_close (List.filter (fun t => String.eqb (tr_coin t) "ENA") trades) = false /\
  exists name,
    analyze_extracted Samples.window_start Samples.window_end ["ENA"%string] trades []
      [Samples.bb_trade] = Raise (UnboundLocalError name).
Proof.
  intros trades.
  assert (Hne : List.filter (fun t => String.eqb (tr_coin t) "ENA") trades <> [])
    by (vm_compute; discriminate).
  assert (Hc : existsb tagged_close
                 (List.filter (fun t => String.eqb (tr_coin t) "ENA") trades) = false)
    by (vm_compute; reflexivity).
  split; [exact Hne|split; [exact Hc|]].
  apply (closed_without_open_or_close_fill_aborts Samples.window_start Samples.window_end
           "ENA" [] trades [] [Samples.bb_trade] Hne).
  - vm_compute. discriminate.
  - right. exact Hc.
Defined.

(** The run of the claim's example: the two opening fills cancel, no fill
    is tagged 'close', and [close_trades] is unbound. *)
Example closed_without_close_fill :
  analyze_extracted Samples.window_start Samples.window_end ["ENA"%string]
    [Samples.fill "ENA" "Open Long" 100 10 1; Samples.fill "ENA" "Open Short" 101 10 1] []
    [Samples.bb_trade]
  = Raise (UnboundLocalError "close_trades").
Proof. vm_compute. reflexivity. Qed.

(** Fills with spot-style tags net to 0 and none is tagged 'open':
    [open_trades] is unbound. *)
Example closed_without_open_fill :
  analyze_extracted Samples.window_start Samples.window_end ["ENA"%string]
    [Samples.buy_3; Samples.sell_3] [] [Samples.bb_trade]
  = Raise (UnboundLocalError "open_trades").
Proof. vm_compute. reflexivity. Qed.

(** The locals outlive an iteration: after a coin that bound both, a later
    coin without closing fills is split with the earlier coin's trades. *)
Example stale_locals_hide_the_error :
  exists results,
    analyze_extracted Samples.window_start Samples.window_end ["SOL"; "ENA"]%string
      [Samples.fill "SOL" "Open Long" 100 10 1; Samples.fill "SOL" "Close Long" 110 10 1;
       Samples.fill "ENA" "Open Long" 100 10 1; Samples.fill "ENA" "Open Short" 101 10 1] []
      [Samples.bb_trade] = Ok results /\ map Symbol results = ["SOL"; "ENA"]%string.
Proof. eexists. split; vm_compute; reflexivity. Qed.

(** Without any venue-B row for the target coins, a coin with venue-A data
    stops the run at the unguarded [coin_bb_data['type']]. *)
Example no_bybit_rows_key_error :
  analyze_extracted Samples.window_start Samples.window_end ["ENA"%string]
    [Samples.open_long_10; Samples.close_long_10] [] []
  = Raise (KeyError "type").
Proof. vm_compute. reflexivity. Qed.

(** ** Venue A: the traversal *)

Section ChunkedFacts.

Context {Raw Row K : Type} `{Countable K}.
Variable record_id : Raw -> K.
Variable to_row : Raw -> Row.
Variable row_time : Row -> Z.
Variable client : Request -> Response Raw.

Hypothesis time_of_id : forall r r',
  record_id r = record_id r' -> row_time (to_row r) = row_time (to_row r').

Lemma Tracked_init : Tracked record_id to_row (∅, []) [].
Proof.
  split; [reflexivity|]. split; [constructor|].
  intros k. simpl. split; [|intros []]. intros Hk. now apply not_elem_of_empty in Hk.
Qed.

Lemma add_record_tracked (sd : gset K * list Row) (kept : list Raw) (raw : Raw) :
  Tracked record_id to_row sd kept ->
  exists kept',
    Tracked record_id to_row (add_record record_id to_row sd raw) (kept ++ kept') /\
    (forall r, In r kept' -> r = raw).
Proof.
  intros (Hdata & Hnd & Hseen). unfold add_record.
  destruct (decide (record_id raw ∈ sd.1)) as [Hin|Hnin].
  - exists []. rewrite app_nil_r. split; [now split|intros r []].
  - exists [raw]. split; [|intros r [<-|[]]; reflexivity].
    split; [|split]; cbn [fst snd].
    + now rewrite Hdata, map_app.
    + rewrite map_app. apply List.NoDup_app; [exact Hnd|repeat constructor; intros []|].
      intros k Hk [<-|[]]. apply Hnin. now apply Hseen.
    + intros k. rewrite map_app, in_app_iff, elem_of_union, elem_of_singleton, Hseen.
      simpl. intuition congruence.
Qed.

Lemma fold_add_record_tracked (raws : list Raw) (sd : gset K * list Row) (kept : list Raw) :
  Tracked record_id to_row sd kept ->
  exists kept',
    Tracked record_id to_row (fold_left (add_record record_id to_row) raws sd) (kept ++ kept') /\
    (forall r, In r kept' -> In r raws).
Proof.
  revert sd kept. induction raws as [|raw raws IH]; intros sd kept Ht; simpl.
  - exists []. rewrite app_nil_r. split; [exact Ht|intros r []].
  - destruct (add_record_tracked sd kept raw Ht) as (k1 & Ht1 & Hk1).
    destruct (IH _ _ Ht1) as (k2 & Ht2 & Hk2).
    exists (k1 ++ k2). rewrite app_assoc. split; [exact Ht2|].
    intros r Hr. apply in_app_iff in Hr. destruct Hr as [Hr|Hr].
    + left. symmetry. now apply Hk1.
    + right. now apply Hk2.
Qed.

Lemma add_record_seen (sd : gset K * list Row) (raw : Raw) :
  record_id raw ∈ (add_record record_id to_row sd raw).1 /\
  (forall k, k ∈ sd.1 -> k ∈ (add_record record_id to_row sd raw).1).
Proof.
  unfold add_record. destruct (decide (record_id raw ∈ sd.1)) as [Hin|Hnin]; cbn [fst].
  - now split.
  - split; [|intros k Hk]; set_solver.
Qed.

Lemma fold_add_record_seen (raws : list Raw) (sd : gset K * list Row) :
  (forall raw, In raw raws ->
     record_id raw ∈ (fold_left (add_record record_id to_row) raws sd).1) /\
  (forall k, k ∈ sd.1 -> k ∈ (fold_left (add_record record_id to_row) raws sd).1).
Proof.
  revert sd. induction raws as [|raw raws IH]; intros sd; simpl.
  - split; [intros raw []|auto].
  - destruct (add_record_seen sd raw) as [Hraw Hmono].
    destruct (IH (add_record record_id to_row sd raw)) as [IH1 IH2].
    split.
    + intros r [<-|Hr]; [now apply IH2|now apply IH1].
    + intros k Hk. now apply IH2, Hmono.
Qed.

(** The loop issues the requests of a [Trace] and folds their answers. *)
Lemma chunk_loop_trace (fuel : nat) (end_timestamp next_start : Z) (st st' : LoopState) :
  chunk_loop record_id to_row client fuel end_timestamp next_start st = Some st' ->
  exists rqs,
    Trace client end_timestamp next_start rqs /\
    requests st' = requests st ++ rqs /\
    (seen st', data st')
    = fold_left (add_record record_id to_row) (received client rqs) (seen st, data st).
Proof.
  revert next_start st. induction fuel as [|fuel IH]; intros next_start st; simpl;
    [discriminate|].
  destruct (next_start <? end_timestamp)%Z eqn:Hlt.
  - apply Z.ltb_lt in Hlt.
    set (batch_end := Z.min (next_start + batch_size_ms) end_timestamp).
    destruct (client (next_start, batch_end)) as [batch|code] eqn:Hc.
    + assert (Hstep : forall st1,
                requests st1 = requests st ++ [(next_start, batch_end)] ->
                (seen st1, data st1)
                = fold_left (add_record record_id to_row) batch (seen st, data st) ->
                chunk_loop record_id to_row client fuel end_timestamp (batch_end + 1) st1
                = Some st' ->
                exists rqs,
                  Trace client end_timestamp next_start rqs /\
                  requests st' = requests st ++ rqs /\
                  (seen st', data st')
                  = fold_left (add_record record_id to_row) (received client rqs)
                      (seen st, data st)).
      { intros st1 Hrq Hsd Hloop. apply IH in Hloop.
        destruct Hloop as (rqs & Htr & Hrqs & Hfold).
        exists ((next_start, batch_end) :: rqs). split; [|split].
        - now apply Trace_answered with batch.
        - rewrite Hrqs, Hrq, <- app_assoc. reflexivity.
        - unfold received in *. simpl. rewrite Hc. simpl.
          rewrite fold_left_app, <- Hsd. exact Hfold. }
      destruct batch as [|raw batch].
      * apply Hstep; reflexivity.
      * apply Hstep; [unfold add_batch; now destruct (fold_left _ _ _)|].
        unfold add_batch. now destruct (fold_left _ _ _).
    + intros [= <-]. exists [(next_start, batch_end)]. split; [|split].
      * now apply Trace_failed with code.
      * reflexivity.
      * unfold received. simpl. now rewrite Hc.
  - apply Z.ltb_ge in Hlt. intros [= <-]. exists []. split; [|split].
    + now constructor.
    + now rewrite app_nil_r.
    + reflexivity.
Qed.

(** The loop ends within the fuel that [chunked_extract] gives it. *)
Lemma chunk_loop_total (fuel : nat) (end_timestamp next_start : Z) (st : LoopState) :
  (end_timestamp - next_start <= Z.of_nat fuel * (batch_size_ms + 1))%Z ->
  exists st', chunk_loop record_id to_row client (S fuel) end_timestamp next_start st
              = Some st'.
Proof.
  revert next_start st. induction fuel as [|fuel IH]; intros next_start st Hfuel.
  - simpl. assert (Hge : (next_start <? end_timestamp)%Z = false) by (apply Z.ltb_ge; lia).
    rewrite Hge. eauto.
  - cbn [chunk_loop]. destruct (next_start <? end_timestamp)%Z eqn:Hlt; [|eauto].
    apply Z.ltb_lt in Hlt.
    assert (Hnext : forall st1,
              exists st', chunk_loop record_id to_row client (S fuel) end_timestamp
                            (Z.min (next_start + batch_size_ms) end_timestamp + 1) st1
                          = Some st').
    { intros st1. apply IH. unfold batch_size_ms in *. lia. }
    destruct (client _) as [[|raw batch]|code]; [apply Hnext|apply Hnext|eauto].
Qed.

Lemma chunk_fuel_enough (start_timestamp end_timestamp : Z) :
  exists fuel,
    chunk_fuel start_timestamp end_timestamp = S fuel /\
    (end_timestamp - start_timestamp <= Z.of_nat fuel * (batch_size_ms + 1))%Z.
Proof.
  unfold chunk_fuel.
  exists (Z.to_nat ((end_timestamp - start_timestamp) / (batch_size_ms + 1)) + 1)%nat.
  split; [lia|].
  assert (Hb : (0 < batch_size_ms + 1)%Z) by (unfold batch_size_ms; lia).
  destruct (Z.le_gt_cases 0 (end_timestamp - start_timestamp)) as [Hpos|Hneg].
  - pose proof (Z.div_pos _ _ Hpos Hb) as Hq.
    pose proof (Z.mod_pos_bound (end_timestamp - start_timestamp) _ Hb) as Hm.
    pose proof (Z.div_mod (end_timestamp - start_timestamp) (batch_size_ms + 1)) as Hdm.
    rewrite Nat2Z.inj_add, Z2Nat.id by exact Hq. lia.
  - lia.
Qed.

Lemma Trace_starts (end_timestamp next_start : Z) (rqs : list Request) :
  Trace client end_timestamp next_start rqs ->
  forall rq, In rq rqs -> (next_start <= fst rq)%Z.
Proof.
  induction 1 as [s Hs|s code Hs Hc|s batch rest Hs Hc Htr IH]; intros rq Hin.
  - destruct Hin.
  - destruct Hin as [<-|[]]. simpl. lia.
  - destruct Hin as [<-|Hin]; [simpl; lia|].
    apply IH in Hin. unfold batch_size_ms in Hin. lia.
Qed.

Lemma Trace_NoDup (end_timestamp next_start : Z) (rqs : list Request) :
  Trace client end_timestamp next_start rqs -> List.NoDup rqs.
Proof.
  induction 1 as [s Hs|s code Hs Hc|s batch rest Hs Hc Htr IH].
  - constructor.
  - repeat constructor. intros [].
  - constructor; [|exact IH]. intros Hin.
    apply (Trace_starts _ _ _ Htr) in Hin. cbn [fst] in Hin.
    unfold batch_size_ms in Hin. lia.
Qed.

Lemma Trace_failure_last (end_timestamp next_start : Z) (rqs : list Request) :
  Trace client end_timestamp next_start rqs ->
  forall before rq after status_code,
    rqs = before ++ rq :: after -> client rq = HttpError status_code -> after = [].
Proof.
  induction 1 as [s Hs|s code Hs Hc|s batch rest Hs Hc Htr IH];
    intros before rq after status_code Heq Hfail.
  - now destruct before.
  - destruct before as [|b before]; [now injection Heq|].
    injection Heq as _ Heq. now destruct before.
  - destruct before as [|b before].
    + injection Heq as <- _. congruence.
    + injection Heq as _ Heq. now apply (IH before rq after status_code).
Qed.

Lemma in_received (rqs : list Request) (rq : Request) (batch : list Raw) (raw : Raw) :
  In rq rqs -> client rq = Http200 batch -> In raw batch -> In raw (received client rqs).
Proof.
  intros Hrq Hc Hraw. unfold received. apply in_concat.
  exists batch. split; [|exact Hraw].
  apply in_map_iff. exists rq. now rewrite Hc.
Qed.

Lemma filter_map_comm {A B} (f : A -> B) (p : B -> bool) (l : list A) :
  List.filter p (map f l) = map f (List.filter (fun x => p (f x)) l).
Proof.
  induction l as [|x l IH]; simpl; [reflexivity|].
  destruct (p (f x)); simpl; now rewrite IH.
Qed.

Lemma NoDup_map_filter {A B} (f : A -> B) (p : A -> bool) (l : list A) :
  List.NoDup (map f l) -> List.NoDup (map f (List.filter p l)).
Proof.
  induction l as [|x l IH]; simpl; intros Hnd; [constructor|].
  inversion Hnd as [|? ? Hnin Hnd']; subst.
  destruct (p x); simpl; [|now apply IH].
  constructor; [|now apply IH].
  intros Hin. apply Hnin. apply in_map_iff in Hin. destruct Hin as (y & Hy & Hin).
  apply filter_In in Hin. apply in_map_iff. exists y. tauto.
Qed.

(** What every extraction over the chunks of a window satisfies. *)
Lemma chunked_extract_facts (start_datetime end_datetime : Z) :
  exists out,
    chunked_extract record_id to_row row_time client start_datetime end_datetime
    = Some out /\
    Trace client (end_datetime * 1000) (start_datetime * 1000) (issued out) /\
    (forall row, In row (frame out) ->
       (start_datetime <= row_time row <= end_datetime)%Z) /\
    one_row_per_key record_id to_row client out /\
    stops_at_first_failure record_id to_row row_time client start_datetime end_datetime out.
Proof.
  unfold chunked_extract.
  destruct (chunk_fuel_enough (start_datetime * 1000) (end_datetime * 1000))
    as (fuel & -> & Hfuel).
  destruct (chunk_loop_total fuel _ _ loop_init Hfuel) as (st & Hloop).
  rewrite Hloop. eexists; split; [reflexivity|].
  apply chunk_loop_trace in Hloop. destruct Hloop as (rqs & Htr & Hrqs & Hfold).
  simpl in Hrqs, Hfold. cbn [issued frame]. rewrite Hrqs.
  destruct (fold_add_record_tracked (received client rqs) (∅, []) [] Tracked_init)
    as (kept & (Hdata & Hnd & Hseen) & Hkept).
  rewrite <- Hfold in Hdata, Hseen. simpl in Hdata, Hseen, Hkept.
  split; [exact Htr|]. split; [|split].
  - intros row Hrow. apply filter_In in Hrow. destruct Hrow as [_ Hw].
    unfold in_window in Hw. apply andb_true_iff in Hw. lia.
  - exists (List.filter (fun raw => in_window row_time start_datetime end_datetime
                                      (to_row raw)) kept).
    split; [|split].
    + rewrite Hdata. apply filter_map_comm.
    + now apply NoDup_map_filter.
    + intros raw Hraw. apply filter_In in Hraw. now apply Hkept.
  - split; [exact (Trace_NoDup _ _ _ Htr)|].
    split; [exact (Trace_failure_last _ _ _ Htr)|].
    intros rq batch raw Hrq Hc Hraw Hw.
    pose proof (in_received rqs rq batch raw Hrq Hc Hraw) as Hrec.
    pose proof (proj1 (fold_add_record_seen (received client rqs) (∅, [])) raw Hrec) as Hs.
    rewrite <- Hfold in Hs. simpl in Hs. apply Hseen in Hs.
    apply in_map_iff in Hs. destruct Hs as (raw' & Hid & Hin').
    exists raw'. split; [exact Hid|].
    apply filter_In. split.
    + rewrite Hdata. now apply in_map.
    + unfold in_window in *. now rewrite (time_of_id raw' raw Hid).
Qed.

End ChunkedFacts.

(** ** Venue A: the two extractors *)

Lemma trade_time_of_id (r r' : RawFill) :
  trade_id r = trade_id r' -> tr_time (trade_row r) = tr_time (trade_row r').
Proof. unfold trade_id. intros [= Ht _ _ _ _]. simpl. now rewrite Ht. Qed.

Lemma funding_time_of_id (r r' : RawFunding) :
  funding_id r = funding_id r' -> fu_time (funding_row r) = fu_time (funding_row r').
Proof. unfold funding_id. intros [= Ht _ _ _]. simpl. now rewrite Ht. Qed.

(** X1: every row that [extract_hyperliquid_trades] or
    [extract_hyperliquid_funding] returns has its time in the window,
    whatever the venue answered. *)
Lemma hyperliquid_rows_in_window :
  (forall (client : Request -> Response RawFill) start_datetime end_datetime,
     exists out,
       extract_hyperliquid_trades client start_datetime end_datetime = Some out /\
       forall row, In row (frame out) ->
         (start_datetime <= tr_time row <= end_datetime)%Z) /\
  (forall (client : Request -> Response RawFunding) start_datetime end_datetime,
     exists out,
       extract_hyperliquid_funding client start_datetime end_datetime = Some out /\
       forall row, In row (frame out) ->
         (start_datetime <= fu_time row <= end_datetime)%Z).
Proof.
  split; intros client s e.
  - destruct (chunked_extract_facts trade_id trade_row tr_time client trade_time_of_id s e)
      as (out & Hrun & _ & Hwin & _). now exists out.
  - destruct (chunked_extract_facts funding_id funding_row fu_time client
                funding_time_of_id s e) as (out & Hrun & _ & Hwin & _). now exists out.
Qed.

(** X2: the frame of a venue-A extraction has at most one row for an
    identity key, and each of its rows is the row of a record that an
    issued request delivered. *)
Lemma hyperliquid_one_row_per_key :
  (forall (client : Request -> Response RawFill) start_datetime end_datetime,
     exists out,
       extract_hyperliquid_trades client start_datetime end_datetime = Some out /\
       one_row_per_key trade_id trade_row client out) /\
  (forall (client : Request -> Response RawFunding) start_datetime end_datetime,
     exists out,
       extract_hyperliquid_funding client start_datetime end_datetime = Some out /\
       one_row_per_key funding_id funding_row client out).
Proof.
  split; intros client s e.
  - destruct (chunked_extract_facts trade_id trade_row tr_time client trade_time_of_id s e)
      as (out & Hrun & _ & _ & Hkey & _). now exists out.
  - destruct (chunked_extract_facts funding_id funding_row fu_time client
                funding_time_of_id s e) as (out & Hrun & _ & _ & Hkey & _). now exists out.
Qed.

(** Two chunks answered with the same fill give one row. *)
Example same_fill_twice_one_row :
  exists out,
    extract_hyperliquid_trades Samples.same_fill_everywhere
      Samples.window_start Samples.window_end = Some out /\
    length (issued out) = 4%nat /\
    frame out = [trade_row Samples.raw_fill].
Proof. eexists. split; [vm_compute; reflexivity|]. split; reflexivity. Qed.

(** C3, as amended: an extraction of venue A always returns; its requests
    are the chunks of the window in order, none issued twice, and a failed
    request is the last one issued, so that no later chunk is requested;
    the records of the requests answered before it are kept. *)
Theorem failed_request_ends_traversal :
  (forall (client : Request -> Response RawFill) start_datetime end_datetime,
     exists out,
       extract_hyperliquid_trades client start_datetime end_datetime = Some out /\
       Trace client (end_datetime * 1000) (start_datetime * 1000) (issued out) /\
       stops_at_first_failure trade_id trade_row tr_time client
         start_datetime end_datetime out) /\
  (forall (client : Request -> Response RawFunding) start_datetime end_datetime,
     exists out,
       extract_hyperliquid_funding client start_datetime end_datetime = Some out /\
       Trace client (end_datetime * 1000) (start_datetime * 1000) (issued out) /\
       stops_at_first_failure funding_id funding_row fu_time client
         start_datetime end_datetime out).
Proof.
  split; intros client s e.
  - destruct (chunked_extract_facts trade_id trade_row tr_time client trade_time_of_id s e)
      as (out & Hrun & Htr & _ & _ & Hstop). now exists out.
  - destruct (chunked_extract_facts funding_id funding_row fu_time client
                funding_time_of_id s e) as (out & Hrun & Htr & _ & _ & Hstop).
    now exists out.
Qed.

(** C3, the claim as stated fails: when the first chunk of a four-chunk
    window fails, the second chunk is never requested. *)
Lemma later_chunks_not_requested :
  exists out,
    extract_hyperliquid_trades Samples.first_chunk_fails
      Samples.window_start Samples.window_end = Some out /\
    issued out = [nth_chunk (Samples.window_start * 1000) (Samples.window_end * 1000) 0] /\
    ~ later_chunks_requested Samples.first_chunk_fails
        (Samples.window_start * 1000) (Samples.window_end * 1000) (issued out).
Proof.
  eexists. split; [vm_compute; reflexivity|]. split; [reflexivity|].
  cbn [issued]. intros Hlater.
  assert (Hin : In (nth_chunk (Samples.window_start * 1000) (Samples.window_end * 1000) 1)
                   [(1755791220000, 1755877620000)%Z]).
  { apply (Hlater 0%Z 503%Z); [lia|now left|reflexivity|lia|vm_compute; reflexivity]. }
  destruct Hin as [Heq|[]]. vm_compute in Heq. discriminate Heq.
Qed.

(** ** Venue B *)

(** C1 at the failing input: venue B answers with an execution stamped one
    hour after the window, and the row stays in the returned frame. *)
Lemma bybit_keeps_row_outside_window :
  extract_bybit_data Samples.bb_late 2 Samples.window_start Samples.window_end
  = Some [execution_row Samples.late_execution] /\
  (Samples.window_end < bb_time (execution_row Samples.late_execution))%Z.
Proof. split; vm_compute; reflexivity. Qed.

(** C2 at the failing input: two pages of venue B overlap in one
    execution, and the returned frame has its row twice. *)
Lemma bybit_keeps_duplicate_rows :
  extract_bybit_data Samples.bb_overlap 3 Samples.window_start Samples.window_end
  = Some [execution_row Samples.execution; execution_row Samples.execution].
Proof. vm_compute. reflexivity. Qed.

(** In venue B a failed request ends the pages of its chunk only: the
    next chunk is requested and its rows are kept. *)
Example bybit_failure_skips_one_chunk :
  extract_bybit_data Samples.bb_first_chunk_fails 3 Samples.window_start Samples.ten_days_end
  = Some [execution_row Samples.execution].
Proof. vm_compute. reflexivity. Qed.

(** ** When the analysis returns *)

Section AnalysisReturns.

Variables start_datetime end_datetime : Z.
Variable hl_trades_df : list Trade.
Variable hl_funding_df : list Funding.
Variable bb_combined_df : list BBRecord.

Lemma analyze_coin_returns (coin : string) (loc : Locals) :
  bb_combined_df <> [] ->
  closed_has_both_legs hl_trades_df hl_funding_df coin ->
  exists out, analyze_coin start_datetime end_datetime hl_trades_df hl_funding_df
                bb_combined_df coin loc = Ok out.
Proof.
  intros Hbb Hlegs. unfold analyze_coin.
  destruct (has_data _ _ _ coin); simpl; [|eauto].
  assert (Hsome : exists rows, coin_bb_data_of bb_combined_df coin = Some rows).
  { unfold coin_bb_data_of. destruct bb_combined_df; [congruence|]. simpl. eauto. }
  destruct Hsome as (rows & ->).
  unfold closed_has_both_legs in Hlegs.
  destruct (position_is_open _ _) eqn:Hopen; [eauto|].
  destruct (Hlegs eq_refl) as [Ho Hc].
  rewrite accumulate_opened, accumulate_closed, Ho, Hc.
  destruct (coin_hl_trades_of hl_trades_df coin) as [|t l] eqn:Hfills;
    [discriminate Ho|].
  cbn. eauto.
Qed.

(** With a venue-B row for some target coin, and both legs for every
    closed position, the loop returns its results. *)
Lemma analysis_loop_returns (coins : list string) (loc : Locals)
    (acc : list PerformanceRecord) :
  bb_combined_df <> [] ->
  (forall coin, In coin coins -> closed_has_both_legs hl_trades_df hl_funding_df coin) ->
  exists results,
    analysis_loop start_datetime end_datetime hl_trades_df hl_funding_df bb_combined_df
      coins loc acc = Ok results.
Proof.
  intros Hbb. revert loc acc. induction coins as [|coin coins IH]; intros loc acc Hlegs.
  - simpl. eauto.
  - cbn [analysis_loop].
    destruct (analyze_coin_returns coin loc Hbb (Hlegs coin (or_introl eq_refl)))
      as ([loc' [row|]] & ->); apply IH; intros c Hc; apply Hlegs; now right.
Qed.

End AnalysisReturns.

(** ** The whole run *)

(** A run from the three clients to the rows: one row for the coin; the
    execution that venue B sent on two pages is charged twice. *)
Example whole_run_returns :
  exists row,
    analyze_performance 3 Samples.same_fill_everywhere Samples.no_funding Samples.bb_overlap
      Samples.window_start Samples.window_end ["ENA"%string] = Some (Ok [row]) /\
    Symbol row = "ENA"%string /\ Side row = "Long hl"%string /\
    Commission_Open row == - (0.0089 + 2 * 0.011).
Proof. eexists. split; [vm_compute; reflexivity|]. repeat split. Qed.

(** A run that ends with the unbound local. *)
Example whole_run_aborts :
  analyze_performance 3 Samples.cancelling_opens Samples.no_funding Samples.bb_overlap
    Samples.window_start Samples.window_end ["ENA"%string]
  = Some (Raise (UnboundLocalError "close_trades")).
Proof. vm_compute. reflexivity. Qed.

(** * Further properties *)

(** ** Venue A: the shape of a traversal *)

Section TraceFacts.

Context {Raw : Type}.
Variable client : Request -> Response Raw.

Lemma Trace_in_order (end_timestamp next_start : Z) (rqs : list Request) :
  Trace client end_timestamp next_start rqs ->
  chunks_in_order next_start end_timestamp rqs.
Proof.
  induction 1 as [s Hs|s code Hs Hc|s batch rest Hs Hc Htr IH].
  - split; [intros rq []|]. split; [intros rq rest [=]|].
    intros [|b before] rq1 rq2 after Heq; discriminate Heq.
  - split; [|split].
    + intros rq [<-|[]]. cbn [fst snd]. unfold batch_size_ms. lia.
    + intros rq rest [= <- _]. reflexivity.
    + intros [|b [|b' before]] rq1 rq2 after Heq; discriminate Heq.
  - destruct IH as (Hin & Hhead & Hnext). split; [|split].
    + intros rq [<-|Hrq].
      * cbn [fst snd]. unfold batch_size_ms. lia.
      * destruct (Hin rq Hrq) as (H1 & H2 & H3). unfold batch_size_ms in *. lia.
    + intros rq rest' [= <- _]. reflexivity.
    + intros [|b before] rq1 rq2 after Heq.
      * injection Heq as <- Hrest. cbn [snd]. now apply (Hhead rq2 after).
      * injection Heq as _ Hrest. now apply (Hnext before rq1 rq2 after).
Qed.

Lemma Trace_covers (end_timestamp next_start : Z) (rqs : list Request) :
  Trace client end_timestamp next_start rqs ->
  (forall rq, In rq rqs -> exists batch, client rq = Http200 batch) ->
  forall k, (0 <= k)%Z ->
    (next_start + k * (batch_size_ms + 1) < end_timestamp)%Z ->
    In (nth_chunk next_start end_timestamp k) rqs.
Proof.
  induction 1 as [s Hs|s code Hs Hc|s batch rest Hs Hc Htr IH]; intros Hok k Hk Hlt.
  - unfold batch_size_ms in *. nia.
  - destruct (Hok _ (or_introl eq_refl)) as (batch & Hb). congruence.
  - destruct (Z.eq_dec k 0%Z) as [->|Hk0].
    + left. unfold nth_chunk. cbn zeta. f_equal; f_equal; lia.
    + right.
      assert (Hmin : Z.min (s + batch_size_ms) end_timestamp = (s + batch_size_ms)%Z)
        by (unfold batch_size_ms in *; nia).
      rewrite Hmin in IH.
      assert (Hk1 : (0 <= k - 1)%Z) by lia.
      specialize (IH (fun rq Hrq => Hok rq (or_intror Hrq)) (k - 1)%Z Hk1).
      replace (nth_chunk s end_timestamp k)
        with (nth_chunk (s + batch_size_ms + 1) end_timestamp (k - 1)).
      * apply IH. lia.
      * unfold nth_chunk. cbn zeta.
        replace (s + batch_size_ms + 1 + (k - 1) * (batch_size_ms + 1))%Z
          with (s + k * (batch_size_ms + 1))%Z by lia.
        reflexivity.
Qed.

Lemma Trace_length (end_timestamp next_start : Z) (rqs : list Request) :
  Trace client end_timestamp next_start rqs ->
  rqs = [] \/
  ((Z.of_nat (length rqs) - 1) * (batch_size_ms + 1) < end_timestamp - next_start)%Z.
Proof.
  induction 1 as [s Hs|s code Hs Hc|s batch rest Hs Hc Htr IH].
  - now left.
  - right. simpl. lia.
  - right. destruct IH as [->|IH]; [simpl; lia|].
    cbn [length]. rewrite Nat2Z.inj_succ. unfold batch_size_ms in *. lia.
Qed.

Lemma Trace_empty_window (end_timestamp next_start : Z) (rqs : list Request) :
  Trace client end_timestamp next_start rqs ->
  (end_timestamp <= next_start)%Z -> rqs = [].
Proof. intros Htr Hle. destruct Htr; [reflexivity|lia|lia]. Qed.

End TraceFacts.

(** ** Venue A: the two extractors, further *)

Lemma chunked_extract_empty_window {Raw Row K : Type} `{Countable K}
    (record_id : Raw -> K) (to_row : Raw -> Row) (row_time : Row -> Z)
    (client : Request -> Response Raw) (start_datetime end_datetime : Z) :
  (end_datetime <= start_datetime)%Z ->
  chunked_extract record_id to_row row_time client start_datetime end_datetime
  = Some (mkExtraction [] []).
Proof.
  intros Hle. unfold chunked_extract.
  destruct (chunk_fuel_enough (start_datetime * 1000) (end_datetime * 1000))
    as (fuel & -> & _).
  cbn [chunk_loop].
  assert (Hge : (start_datetime * 1000 <? end_datetime * 1000)%Z = false)
    by (apply Z.ltb_ge; lia).
  now rewrite Hge.
Qed.

Lemma bb_chunk_loop_empty_window {S : Type} (bb_client : BBRequest -> option BBResult)
    (fuel : nat) (endpoint : string) (symbol : option string) (handle : S -> RawBB -> S)
    (end_timestamp current_start : Z) (st : S) :
  (end_timestamp <= current_start)%Z ->
  bb_chunk_loop bb_client (Datatypes.S fuel) endpoint symbol handle end_timestamp
    current_start st = Some st.
Proof.
  intros Hle. cbn [bb_chunk_loop].
  assert (Hge : (current_start <? end_timestamp)%Z = false) by (apply Z.ltb_ge; lia).
  now rewrite Hge.
Qed.

Lemma extract_bybit_data_empty_window (bb_client : BBRequest -> option BBResult)
    (fuel : nat) (start_datetime end_datetime : Z) :
  (end_datetime <= start_datetime)%Z ->
  extract_bybit_data bb_client (S fuel) start_datetime end_datetime = Some [].
Proof.
  intros Hle. assert (Hms : (end_datetime * 1000 <= start_datetime * 1000)%Z) by lia.
  unfold extract_bybit_data.
  rewrite (bb_chunk_loop_empty_window bb_client fuel _ _ _ _ _ _ Hms).
  rewrite elements_empty. cbn [symbol_loop].
  now rewrite (bb_chunk_loop_empty_window bb_client fuel _ _ _ _ _ _ Hms).
Qed.

(** X3: over a window that ends no later than it starts, the three
    extractors issue no request and return an empty frame. *)
Theorem empty_window_extracts_nothing (start_datetime end_datetime : Z) :
  (end_datetime <= start_datetime)%Z ->
  (forall client : Request -> Response RawFill,
     extract_hyperliquid_trades client start_datetime end_datetime
     = Some (mkExtraction [] [])) /\
  (forall client : Request -> Response RawFunding,
     extract_hyperliquid_funding client start_datetime end_datetime
     = Some (mkExtraction [] [])) /\
  (forall (bb_client : BBRequest -> option BBResult) (fuel : nat),
     extract_bybit_data bb_client (S fuel) start_datetime end_datetime = Some []).
Proof.
  intros Hle. split; [|split].
  - intros client. now apply chunked_extract_empty_window.
  - intros client. now apply chunked_extract_empty_window.
  - intros bb_client fuel. now apply extract_bybit_data_empty_window.
Qed.

Lemma empty_window_extracts_nothing_witness :
  (Samples.window_start <= Samples.window_start)%Z /\
  extract_hyperliquid_trades Samples.same_fill_everywhere
    Samples.window_start Samples.window_start = Some (mkExtraction [] []) /\
  extract_bybit_data Samples.bb_overlap 1 Samples.window_start Samples.window_start = Some [].
Proof.
  assert (Hle : (Samples.window_start <= Samples.window_start)%Z) by lia.
  destruct (empty_window_extracts_nothing _ _ Hle) as (Ht & _ & Hb).
  split; [exact Hle|]. split; [apply Ht|apply Hb].
Defined.

(** X4: the requests of a venue-A extraction start at the start of the
    window, each spans at most 24 hours inside the window, and each starts
    one millisecond after the one before it ends. *)
Theorem venue_a_chunks_in_order :
  (forall (client : Request -> Response RawFill) start_datetime end_datetime,
     exists out,
       extract_hyperliquid_trades client start_datetime end_datetime = Some out /\
       chunks_in_order (start_datetime * 1000) (end_datetime * 1000) (issued out)) /\
  (forall (client : Request -> Response RawFunding) start_datetime end_datetime,
     exists out,
       extract_hyperliquid_funding client start_datetime end_datetime = Some out /\
       chunks_in_order (start_datetime * 1000) (end_datetime * 1000) (issued out)).
Proof.
  split; intros client s e.
  - destruct (chunked_extract_facts trade_id trade_row tr_time client trade_time_of_id s e)
      as (out & Hrun & Htr & _). exists out. split; [exact Hrun|].
    exact (Trace_in_order _ _ _ _ Htr).
  - destruct (chunked_extract_facts funding_id funding_row fu_time client
                funding_time_of_id s e) as (out & Hrun & Htr & _).
    exists out. split; [exact Hrun|]. exact (Trace_in_order _ _ _ _ Htr).
Qed.

(** X5: when no request of a venue-A extraction fails, every chunk of
    the window is requested. *)
Theorem venue_a_requests_every_chunk :
  (forall (client : Request -> Response RawFill) start_datetime end_datetime,
     (forall rq, exists batch, client rq = Http200 batch) ->
     exists out,
       extract_hyperliquid_trades client start_datetime end_datetime = Some out /\
       forall k, (0 <= k)%Z ->
         (start_datetime * 1000 + k * (batch_size_ms + 1) < end_datetime * 1000)%Z ->
         In (nth_chunk (start_datetime * 1000) (end_datetime * 1000) k) (issued out)) /\
  (forall (client : Request -> Response RawFunding) start_datetime end_datetime,
     (forall rq, exists batch, client rq = Http200 batch) ->
     exists out,
       extract_hyperliquid_funding client start_datetime end_datetime = Some out /\
       forall k, (0 <= k)%Z ->
         (start_datetime * 1000 + k * (batch_size_ms + 1) < end_datetime * 1000)%Z ->
         In (nth_chunk (start_datetime * 1000) (end_datetime * 1000) k) (issued out)).
Proof.
  split; intros client s e Hok.
  - destruct (chunked_extract_facts trade_id trade_row tr_time client trade_time_of_id s e)
      as (out & Hrun & Htr & _). exists out. split; [exact Hrun|].
    apply (Trace_covers _ _ _ _ Htr). intros rq _. apply Hok.
  - destruct (chunked_extract_facts funding_id funding_row fu_time client
                funding_time_of_id s e) as (out & Hrun & Htr & _).
    exists out. split; [exact Hrun|].
    apply (Trace_covers _ _ _ _ Htr). intros rq _. apply Hok.
Qed.

Lemma venue_a_requests_every_chunk_witness :
  (forall rq, exists batch, Samples.same_fill_everywhere rq = Http200 batch) /\
  exists out,
    extract_hyperliquid_trades Samples.same_fill_everywhere
      Samples.window_start Samples.window_end = Some out /\
    In (nth_chunk (Samples.window_start * 1000) (Samples.window_end * 1000) 3) (issued out).
Proof.
  assert (Hok : forall rq, exists batch, Samples.same_fill_everywhere rq = Http200 batch)
    by (intros rq; eexists; reflexivity).
  split; [exact Hok|].
  destruct (proj1 venue_a_requests_every_chunk Samples.same_fill_everywhere
              Samples.window_start Samples.window_end Hok) as (out & Hrun & Hall).
  exists out. split; [exact Hrun|]. apply Hall; [lia|vm_compute; reflexivity].
Defined.

Lemma requests_bound (end_timestamp start_timestamp : Z) (rqs : list Request) :
  (start_timestamp <= end_timestamp)%Z ->
  rqs = [] \/
  ((Z.of_nat (length rqs) - 1) * (batch_size_ms + 1) < end_timestamp - start_timestamp)%Z ->
  (Z.of_nat (length rqs) <= (end_timestamp - start_timestamp) / (batch_size_ms + 1) + 1)%Z.
Proof.
  intros Hle Hlen.
  assert (Hb : (0 < batch_size_ms + 1)%Z) by (unfold batch_size_ms; lia).
  destruct Hlen as [->|Hlen].
  - simpl. assert (0 <= (end_timestamp - start_timestamp) / (batch_size_ms + 1))%Z
      by (apply Z.div_pos; lia). lia.
  - assert (Z.of_nat (length rqs) - 1
            <= (end_timestamp - start_timestamp) / (batch_size_ms + 1))%Z
      by (apply Z.div_le_lower_bound; lia). lia.
Qed.

(** X6: a venue-A extraction over a window of [d] milliseconds issues at
    most [d / 86400001 + 1] requests. *)
Theorem venue_a_request_count :
  (forall (client : Request -> Response RawFill) start_datetime end_datetime,
     (start_datetime <= end_datetime)%Z ->
     exists out,
       extract_hyperliquid_trades client start_datetime end_datetime = Some out /\
       (Z.of_nat (length (issued out))
        <= (end_datetime * 1000 - start_datetime * 1000) / (batch_size_ms + 1) + 1)%Z) /\
  (forall (client : Request -> Response RawFunding) start_datetime end_datetime,
     (start_datetime <= end_datetime)%Z ->
     exists out,
       extract_hyperliquid_funding client start_datetime end_datetime = Some out /\
       (Z.of_nat (length (issued out))
        <= (end_datetime * 1000 - start_datetime * 1000) / (batch_size_ms + 1) + 1)%Z).
Proof.
  split; intros client s e Hle.
  - destruct (chunked_extract_facts trade_id trade_row tr_time client trade_time_of_id s e)
      as (out & Hrun & Htr & _). exists out. split; [exact Hrun|].
    apply requests_bound; [lia|]. exact (Trace_length _ _ _ _ Htr).
  - destruct (chunked_extract_facts funding_id funding_row fu_time client
                funding_time_of_id s e) as (out & Hrun & Htr & _).
    exists out. split; [exact Hrun|].
    apply requests_bound; [lia|]. exact (Trace_length _ _ _ _ Htr).
Qed.

Lemma venue_a_request_count_witness :
  (Samples.window_start <= Samples.window_end)%Z /\
  exists out,
    extract_hyperliquid_trades Samples.first_chunk_fails
      Samples.window_start Samples.window_end = Some out /\
    (Z.of_nat (length (issued out)) <= 4)%Z.
Proof.
  assert (Hle : (Samples.window_start <= Samples.window_end)%Z) by (vm_compute; discriminate).
  split; [exact Hle|].
  destruct (proj1 venue_a_request_count Samples.first_chunk_fails
              Samples.window_start Samples.window_end Hle) as (out & Hrun & Hlen).
  exists out. split; [exact Hrun|exact Hlen].
Defined.

(** ** Venue B: the loops *)

Section BybitFacts.

Variable bb_client : BBRequest -> option BBResult.

Lemma cursor_loop_inv {S : Type} (P : S -> Prop) (handle : S -> RawBB -> S)
    (request : option string -> BBRequest) :
  (forall st raw, P st -> P (handle st raw)) ->
  forall fuel cursor st st',
    P st -> cursor_loop bb_client fuel request handle cursor st = Some st' -> P st'.
Proof.
  intros Hstep. induction fuel as [|fuel IH]; intros cursor st st' Hst; simpl;
    [discriminate|].
  destruct (bb_client (request cursor)) as [result|]; [|now intros [= <-]].
  assert (Hfold : P (fold_left handle (res_list result) st)).
  { clear IH. revert st Hst. induction (res_list result) as [|raw l IHl]; intros st Hst;
      simpl; [exact Hst|]. apply IHl. now apply Hstep. }
  destruct (String.eqb _ _); [now intros [= <-]|]. now apply IH.
Qed.

Lemma bb_chunk_loop_inv {S : Type} (P : S -> Prop) (handle : S -> RawBB -> S)
    (endpoint : string) (symbol : option string) (end_timestamp : Z) :
  (forall st raw, P st -> P (handle st raw)) ->
  forall fuel current_start st st',
    P st ->
    bb_chunk_loop bb_client fuel endpoint symbol handle end_timestamp current_start st
    = Some st' -> P st'.
Proof.
  intros Hstep. induction fuel as [|fuel IH]; intros current_start st st' Hst;
    [discriminate|].
  cbn [bb_chunk_loop]. destruct (current_start <? end_timestamp)%Z; [|now intros [= <-]].
  destruct (cursor_loop _ _ _ _ _ _) as [st1|] eqn:Hc; [|discriminate].
  apply (cursor_loop_inv P handle _ Hstep) in Hc; [|exact Hst].
  now apply IH.
Qed.

Lemma symbol_loop_inv (P : list BBRecord -> Prop) :
  (forall acc exec, P acc -> P (acc ++ [execution_row exec])) ->
  forall fuel symbols start_timestamp end_timestamp acc out,
    P acc ->
    symbol_loop bb_client fuel symbols start_timestamp end_timestamp acc = Some out ->
    P out.
Proof.
  intros Hstep fuel symbols s e. induction symbols as [|symbol rest IH]; intros acc out Hacc;
    simpl; [now intros [= <-]|].
  destruct (String.eqb symbol ""); [now apply IH|].
  destruct (bb_chunk_loop _ _ _ _ _ _ _ _) as [acc1|] eqn:Hc; [|discriminate].
  apply (bb_chunk_loop_inv P _ _ _ _ Hstep) in Hc; [|exact Hacc].
  now apply IH.
Qed.

(** The rows before [sort_values]: every one satisfies [P] when the rows
    of executions and of closed-PnL records do. *)
Lemma extract_bybit_data_rows (P : BBRecord -> Prop) (fuel : nat)
    (start_datetime end_datetime : Z) (out : list BBRecord) :
  (forall exec, P (execution_row exec)) ->
  (forall pnl, P (closed_pnl_row pnl)) ->
  (forall l, Forall P l -> Forall P (sort_by_time l)) ->
  extract_bybit_data bb_client fuel start_datetime end_datetime = Some out ->
  Forall P out.
Proof.
  intros Hexec Hpnl Hsort. unfold extract_bybit_data.
  destruct (bb_chunk_loop _ _ _ None _ _ _ ∅) as [symbols|]; [|discriminate].
  destruct (symbol_loop _ _ _ _ _ _) as [data1|] eqn:Hs; [|discriminate].
  destruct (bb_chunk_loop _ _ _ _ _ _ _ data1) as [data2|] eqn:Hc; [|discriminate].
  intros [= <-]. apply Hsort.
  apply (bb_chunk_loop_inv (Forall P)) in Hc; [exact Hc| |].
  - intros acc pnl Hacc. apply Forall_app. split; [exact Hacc|]. now repeat constructor.
  - apply (symbol_loop_inv (Forall P)) in Hs; [exact Hs| |constructor].
    intros acc exec Hacc. apply Forall_app. split; [exact Hacc|]. now repeat constructor.
Qed.

End BybitFacts.

Lemma insert_by_time_In (r x : BBRecord) (l : list BBRecord) :
  In x (insert_by_time r l) <-> x = r \/ In x l.
Proof.
  induction l as [|y l IH]; simpl.
  - intuition.
  - destruct (bb_time r <? bb_time y)%Z; simpl; [intuition|].
    rewrite IH. intuition.
Qed.

Lemma fold_insert_In (x : BBRecord) (l sorted : list BBRecord) :
  In x (fold_left (fun acc r => insert_by_time r acc) l sorted) <-> In x l \/ In x sorted.
Proof.
  revert sorted. induction l as [|r l IH]; intros sorted; simpl.
  - intuition.
  - rewrite IH, insert_by_time_In. intuition.
Qed.

Lemma sort_by_time_In (x : BBRecord) (l : list BBRecord) :
  In x (sort_by_time l) <-> In x l.
Proof. unfold sort_by_time. rewrite fold_insert_In. simpl. intuition. Qed.

Lemma sort_by_time_Forall (P : BBRecord -> Prop) (l : list BBRecord) :
  Forall P l -> Forall P (sort_by_time l).
Proof.
  rewrite !List.Forall_forall. intros Hl x Hx. apply Hl. now apply sort_by_time_In.
Qed.

Lemma insert_by_time_sorted (r : BBRecord) (l : list BBRecord) :
  sorted_by_time l -> sorted_by_time (insert_by_time r l).
Proof.
  induction l as [|y l IH]; simpl.
  - intros _. split; [intros x []|exact I].
  - intros [Hy Hl]. destruct (bb_time r <? bb_time y)%Z eqn:E.
    + apply Z.ltb_lt in E. split; [|now split].
      intros x [<-|Hx]; [lia|]. specialize (Hy x Hx). lia.
    + apply Z.ltb_ge in E. split; [|now apply IH].
      intros x Hx. apply insert_by_time_In in Hx. destruct Hx as [->|Hx]; [exact E|].
      now apply Hy.
Qed.

Lemma sort_by_time_sorted (l : list BBRecord) : sorted_by_time (sort_by_time l).
Proof.
  unfold sort_by_time. assert (Hnil : sorted_by_time []) by exact I.
  revert Hnil. generalize (@nil BBRecord) as sorted.
  induction l as [|r l IH]; intros sorted Hs; simpl; [exact Hs|].
  apply IH. now apply insert_by_time_sorted.
Qed.

Lemma execution_row_shape (exec : RawBB) : bb_row_shape (execution_row exec).
Proof.
  unfold execution_row, bb_row_shape.
  destruct (String.eqb _ _); cbn.
  - repeat split.
  - split; [reflexivity|]. split; [apply Qabs_nonneg|]. split; discriminate.
Qed.

Lemma closed_pnl_row_shape (pnl : RawBB) : bb_row_shape (closed_pnl_row pnl).
Proof. unfold closed_pnl_row, bb_row_shape. cbn. repeat split. Qed.

(** X7: the frame that [extract_bybit_data] returns is in the order of
    its time column. *)
Theorem bybit_frame_sorted (bb_client : BBRequest -> option BBResult) (fuel : nat)
    (start_datetime end_datetime : Z) (out : list BBRecord) :
  extract_bybit_data bb_client fuel start_datetime end_datetime = Some out ->
  sorted_by_time out.
Proof.
  unfold extract_bybit_data.
  destruct (bb_chunk_loop _ _ _ None _ _ _ ∅) as [symbols|]; [|discriminate].
  destruct (symbol_loop _ _ _ _ _ _) as [data1|]; [|discriminate].
  destruct (bb_chunk_loop _ _ _ _ _ _ _ data1) as [data2|]; [|discriminate].
  intros [= <-]. apply sort_by_time_sorted.
Qed.

Lemma bybit_frame_sorted_witness :
  exists out,
    extract_bybit_data Samples.bb_overlap 3 Samples.window_start Samples.window_end
    = Some out /\ sorted_by_time out.
Proof.
  eexists. split; [vm_compute; reflexivity|].
  apply (bybit_frame_sorted Samples.bb_overlap 3 Samples.window_start Samples.window_end).
  vm_compute. reflexivity.
Defined.

(** X8: every row of the frame of [extract_bybit_data] has asset 'USDT';
    a trade row has a commission amount that is not negative, a funding
    row has no trade id, side, quantity, price or PnL, and a closed-PnL
    row has amount 0 and the order id in both id columns. *)
Theorem bybit_rows_shape (bb_client : BBRequest -> option BBResult) (fuel : nat)
    (start_datetime end_datetime : Z) (out : list BBRecord) :
  extract_bybit_data bb_client fuel start_datetime end_datetime = Some out ->
  forall row, In row out -> bb_row_shape row.
Proof.
  intros Hrun. apply List.Forall_forall.
  apply (extract_bybit_data_rows bb_client bb_row_shape fuel start_datetime end_datetime out);
    [apply execution_row_shape|apply closed_pnl_row_shape|apply sort_by_time_Forall|exact Hrun].
Qed.

Lemma bybit_rows_shape_witness :
  exists out,
    extract_bybit_data Samples.bb_late 2 Samples.window_start Samples.window_end = Some out /\
    bb_row_shape (execution_row Samples.late_execution).
Proof.
  eexists. split; [vm_compute; reflexivity|].
  apply (bybit_rows_shape Samples.bb_late 2 Samples.window_start Samples.window_end
           [execution_row Samples.late_execution]); [vm_compute; reflexivity|now left].
Defined.

(** ** Venue B: when the extraction returns *)

Section BybitTermination.

Variable bb_client : BBRequest -> option BBResult.

Lemma cursor_loop_last_page {S : Type} (fuel : nat) (request : option string -> BBRequest)
    (handle : S -> RawBB -> S) (cursor : option string) (st : S) :
  last_page (bb_client (request cursor)) ->
  exists st', cursor_loop bb_client (Datatypes.S fuel) request handle cursor st = Some st'.
Proof.
  intros Hlast. cbn [cursor_loop].
  destruct (bb_client (request cursor)) as [result|]; [|eauto].
  simpl in Hlast. rewrite Hlast. simpl. eauto.
Qed.

Lemma bb_chunk_loop_returns {S : Type} (endpoint : string) (symbol : option string)
    (handle : S -> RawBB -> S) (end_timestamp : Z) :
  (forall rq, last_page (bb_client rq)) ->
  forall fuel current_start st,
    (end_timestamp - current_start <= Z.of_nat fuel * (seven_days_ms + 1))%Z ->
    exists st', bb_chunk_loop bb_client (Datatypes.S fuel) endpoint symbol handle
                  end_timestamp current_start st = Some st'.
Proof.
  intros Hlast. induction fuel as [|fuel IH]; intros current_start st Hfuel.
  - exists st. apply bb_chunk_loop_empty_window. lia.
  - cbn [bb_chunk_loop]. destruct (current_start <? end_timestamp)%Z eqn:Hlt; [|eauto].
    apply Z.ltb_lt in Hlt.
    destruct (cursor_loop_last_page (Datatypes.S fuel)
                (fun cursor => mkBBRequest endpoint symbol current_start
                   (Z.min (current_start + seven_days_ms) end_timestamp) cursor)
                handle None st (Hlast _)) as (st1 & Hc).
    rewrite Hc. apply IH. unfold seven_days_ms in *. lia.
Qed.

Lemma symbol_loop_returns (fuel : nat) (start_timestamp end_timestamp : Z) :
  (forall rq, last_page (bb_client rq)) ->
  (end_timestamp - start_timestamp <= Z.of_nat fuel * (seven_days_ms + 1))%Z ->
  forall symbols acc,
    exists out, symbol_loop bb_client (S fuel) symbols start_timestamp end_timestamp acc
                = Some out.
Proof.
  intros Hlast Hfuel. induction symbols as [|symbol rest IH]; intros acc.
  - simpl. eauto.
  - cbn [symbol_loop]. destruct (String.eqb symbol ""); [apply IH|].
    destruct (bb_chunk_loop_returns "/v5/execution/list" (Some symbol)
                (fun acc exec => acc ++ [execution_row exec]) end_timestamp Hlast
                fuel start_timestamp acc Hfuel) as (acc1 & Hc).
    rewrite Hc. apply IH.
Qed.

Lemma cursor_loop_all_fail {S : Type} (fuel : nat) (request : option string -> BBRequest)
    (handle : S -> RawBB -> S) (cursor : option string) (st : S) :
  (forall rq, bb_client rq = None) ->
  cursor_loop bb_client (Datatypes.S fuel) request handle cursor st = Some st.
Proof. intros Hfail. cbn [cursor_loop]. now rewrite Hfail. Qed.

Lemma bb_chunk_loop_all_fail {S : Type} (endpoint : string) (symbol : option string)
    (handle : S -> RawBB -> S) (end_timestamp : Z) :
  (forall rq, bb_client rq = None) ->
  forall fuel current_start st,
    (end_timestamp - current_start <= Z.of_nat fuel * (seven_days_ms + 1))%Z ->
    bb_chunk_loop bb_client (Datatypes.S fuel) endpoint symbol handle
      end_timestamp current_start st = Some st.
Proof.
  intros Hfail. induction fuel as [|fuel IH]; intros current_start st Hfuel.
  - apply bb_chunk_loop_empty_window. lia.
  - cbn [bb_chunk_loop]. destruct (current_start <? end_timestamp)%Z eqn:Hlt; [|reflexivity].
    apply Z.ltb_lt in Hlt. rewrite (cursor_loop_all_fail _ _ _ _ _ Hfail).
    apply IH. unfold seven_days_ms in *. lia.
Qed.

Lemma cursor_loop_endless {S : Type} (request : option string -> BBRequest)
    (handle : S -> RawBB -> S) :
  (forall rq, exists result,
     bb_client rq = Some result /\ res_nextPageCursor result <> ""%string) ->
  forall fuel cursor st, cursor_loop bb_client fuel request handle cursor st = None.
Proof.
  intros Hmore. induction fuel as [|fuel IH]; intros cursor st; [reflexivity|].
  cbn [cursor_loop]. destruct (Hmore (request cursor)) as (result & -> & Hne).
  apply String.eqb_neq in Hne. rewrite Hne. apply IH.
Qed.

End BybitTermination.

(** X9: when no answer of venue B names a next page, [extract_bybit_data]
    returns a frame: one round for each seven-day chunk is enough. *)
Theorem bybit_returns_without_cursor (bb_client : BBRequest -> option BBResult)
    (fuel : nat) (start_datetime end_datetime : Z) :
  (forall rq, last_page (bb_client rq)) ->
  (end_datetime * 1000 - start_datetime * 1000 <= Z.of_nat fuel * (seven_days_ms + 1))%Z ->
  exists out, extract_bybit_data bb_client (S fuel) start_datetime end_datetime = Some out.
Proof.
  intros Hlast Hfuel. unfold extract_bybit_data.
  destruct (bb_chunk_loop_returns bb_client "/v5/execution/list" None
              (fun (symbols : gset string) exec => {[get (rb_symbol exec) ""%string]} ∪ symbols)
              (end_datetime * 1000) Hlast fuel (start_datetime * 1000)%Z ∅ Hfuel)
    as (symbols & ->).
  destruct (symbol_loop_returns bb_client fuel _ _ Hlast Hfuel (elements symbols) [])
    as (data1 & ->).
  destruct (bb_chunk_loop_returns bb_client "/v5/position/closed-pnl" None
              (fun acc pnl => acc ++ [closed_pnl_row pnl])
              (end_datetime * 1000) Hlast fuel (start_datetime * 1000)%Z data1 Hfuel)
    as (data2 & ->).
  eauto.
Qed.

Lemma bybit_returns_without_cursor_witness :
  (forall rq, last_page (Samples.bb_late rq)) /\
  (Samples.window_end * 1000 - Samples.window_start * 1000
   <= Z.of_nat 1 * (seven_days_ms + 1))%Z /\
  exists out,
    extract_bybit_data Samples.bb_late 2 Samples.window_start Samples.window_end = Some out.
Proof.
  assert (Hlast : forall rq, last_page (Samples.bb_late rq)).
  { intros rq. unfold Samples.bb_late. now destruct (String.eqb _ _). }
  assert (Hfuel : (Samples.window_end * 1000 - Samples.window_start * 1000
                   <= Z.of_nat 1 * (seven_days_ms + 1))%Z) by (vm_compute; discriminate).
  split; [exact Hlast|]. split; [exact Hfuel|].
  exact (bybit_returns_without_cursor Samples.bb_late 1 _ _ Hlast Hfuel).
Defined.

(** X10: a venue B that answers every request with a cursor to a next
    page keeps the page loop of the first chunk running: over a window
    that is not empty the extraction returns after no number of rounds. *)
Theorem bybit_endless_pages_never_return (bb_client : BBRequest -> option BBResult)
    (start_datetime end_datetime : Z) :
  (forall rq, exists result,
     bb_client rq = Some result /\ res_nextPageCursor result <> ""%string) ->
  (start_datetime < end_datetime)%Z ->
  forall fuel, extract_bybit_data bb_client fuel start_datetime end_datetime = None.
Proof.
  intros Hmore Hlt fuel. unfold extract_bybit_data.
  destruct fuel as [|fuel]; [reflexivity|]. cbn [bb_chunk_loop].
  assert (Hms : (start_datetime * 1000 <? end_datetime * 1000)%Z = true)
    by (apply Z.ltb_lt; lia).
  rewrite Hms. now rewrite (cursor_loop_endless bb_client _ _ Hmore).
Qed.

Lemma bybit_endless_pages_never_return_witness :
  (forall rq, exists result,
     MoreSamples.endless_pages rq = Some result /\ res_nextPageCursor result <> ""%string) /\
  (Samples.window_start < Samples.window_end)%Z /\
  extract_bybit_data MoreSamples.endless_pages 1000 Samples.window_start Samples.window_end = None.
Proof.
  assert (Hmore : forall rq, exists result,
            MoreSamples.endless_pages rq = Some result /\ res_nextPageCursor result <> ""%string).
  { intros rq. eexists. split; [reflexivity|]. discriminate. }
  assert (Hlt : (Samples.window_start < Samples.window_end)%Z) by (vm_compute; reflexivity).
  split; [exact Hmore|]. split; [exact Hlt|].
  exact (bybit_endless_pages_never_return MoreSamples.endless_pages _ _ Hmore Hlt 1000%nat).
Defined.

(** X11: when every request to venue B fails (an HTTP error or a venue
    error code, both the empty result), [extract_bybit_data] returns the
    empty frame and raises nothing. *)
Theorem bybit_all_requests_fail (bb_client : BBRequest -> option BBResult)
    (fuel : nat) (start_datetime end_datetime : Z) :
  (forall rq, bb_client rq = None) ->
  (end_datetime * 1000 - start_datetime * 1000 <= Z.of_nat fuel * (seven_days_ms + 1))%Z ->
  extract_bybit_data bb_client (S fuel) start_datetime end_datetime = Some [].
Proof.
  intros Hfail Hfuel. unfold extract_bybit_data.
  rewrite (bb_chunk_loop_all_fail bb_client _ _ _ _ Hfail fuel _ _ Hfuel).
  rewrite elements_empty. cbn [symbol_loop].
  now rewrite (bb_chunk_loop_all_fail bb_client _ _ _ _ Hfail fuel _ _ Hfuel).
Qed.

Lemma bybit_all_requests_fail_witness :
  (forall rq, MoreSamples.bb_down rq = None) /\
  (Samples.ten_days_end * 1000 - Samples.window_start * 1000
   <= Z.of_nat 2 * (seven_days_ms + 1))%Z /\
  extract_bybit_data MoreSamples.bb_down 3 Samples.window_start Samples.ten_days_end
  = Some [].
Proof.
  assert (Hfuel : (Samples.ten_days_end * 1000 - Samples.window_start * 1000
                   <= Z.of_nat 2 * (seven_days_ms + 1))%Z) by (vm_compute; discriminate).
  split; [reflexivity|]. split; [exact Hfuel|].
  exact (bybit_all_requests_fail MoreSamples.bb_down 2 _ _ (fun _ => eq_refl) Hfuel).
Defined.

(** ** The largest fill and the prices *)

Lemma idxmax_from_first_maximum (l : list Trade) (best t : Trade) :
  idxmax_from best l = t ->
  exists before after,
    best :: l = before ++ t :: after /\
    (forall x, In x before -> Qabs (tr_sz x) < Qabs (tr_sz t)) /\
    (forall x, In x after -> Qabs (tr_sz x) <= Qabs (tr_sz t)).
Proof.
  revert best. induction l as [|y l IH]; intros best; simpl.
  - intros <-. exists [], []. split; [reflexivity|]. split; intros x [].
  - destruct (Qltb (Qabs (tr_sz best)) (Qabs (tr_sz y))) eqn:E; intros Hmax.
    + apply Qltb_lt in E. destruct (IH y Hmax) as (before & after & Heq & Hb & Ha).
      exists (best :: before), after. split; [cbn; f_equal; exact Heq|]. split; [|exact Ha].
      intros x [<-|Hx]; [|now apply Hb].
      destruct before as [|b before].
      * injection Heq as <- _. exact E.
      * injection Heq as <- _. specialize (Hb y (or_introl eq_refl)). lra.
    + apply Qltb_ge in E. destruct (IH best Hmax) as (before & after & Heq & Hb & Ha).
      destruct before as [|b before].
      * injection Heq as <- <-. exists [], (y :: l). split; [reflexivity|].
        split; [intros x []|]. intros x [<-|Hx]; [exact E|now apply Ha].
      * injection Heq as <- ->. exists (best :: y :: before), after.
        split; [reflexivity|]. split; [|exact Ha].
        intros x [<-|[<-|Hx]].
        -- apply Hb. now left.
        -- specialize (Hb best (or_introl eq_refl)). lra.
        -- apply Hb. now right.
Qed.

Lemma position_side_closed (l : list Trade) (fu : list Funding) :
  position_is_open l fu = false ->
  exists largest,
    largest_trade l = Some largest /\
    position_side l fu
    = (if contains "long" (lower (tr_dir largest))
       then "Long hl (closed)" else "Short hl (closed)")%string.
Proof.
  unfold position_is_open, position_side, position_status.
  destruct (largest_trade l) as [largest|]; [|discriminate].
  destruct (Qltb epsilon _); [discriminate|]. intros _. now exists largest.
Qed.

(** X12: the side of a closed position is read off the first fill of
    greatest size in the order of the frame: every fill before it is
    strictly smaller and none after it is larger. *)
Theorem closed_side_from_first_largest_fill (fills : list Trade) (fu : list Funding) :
  position_is_open fills fu = false ->
  exists before largest after,
    fills = before ++ largest :: after /\
    (forall x, In x before -> Qabs (tr_sz x) < Qabs (tr_sz largest)) /\
    (forall x, In x after -> Qabs (tr_sz x) <= Qabs (tr_sz largest)) /\
    position_side fills fu
    = (if contains "long" (lower (tr_dir largest))
       then "Long hl (closed)" else "Short hl (closed)")%string.
Proof.
  intros Hclosed. destruct (position_side_closed fills fu Hclosed) as (largest & Hl & Hside).
  destruct fills as [|t l]; [discriminate Hl|]. injection Hl as Hl.
  destruct (idxmax_from_first_maximum l t largest Hl) as (before & after & Heq & Hb & Ha).
  exists before, largest, after. repeat split; assumption.
Qed.

Lemma closed_side_from_first_largest_fill_witness :
  position_is_open [Samples.open_long_10; Samples.close_long_10] [] = false /\
  position_side [Samples.open_long_10; Samples.close_long_10] []
  = "Long hl (closed)"%string.
Proof.
  assert (Hc : position_is_open [Samples.open_long_10; Samples.close_long_10] [] = false)
    by (vm_compute; reflexivity).
  split; [exact Hc|].
  destruct (closed_side_from_first_largest_fill _ [] Hc)
    as (before & largest & after & Heq & Hb & Ha & Hside).
  rewrite Hside. destruct before as [|b [|b' before]].
  - injection Heq as <- _. reflexivity.
  - injection Heq as <- <- _. exfalso.
    specialize (Hb Samples.open_long_10 (or_introl eq_refl)).
    vm_compute in Hb. discriminate Hb.
  - exfalso. apply (f_equal (@length Trade)) in Heq.
    rewrite length_app in Heq. simpl in Heq. lia.
Defined.





(** ** The rows of the results *)

Section LoopFacts.

Variables start_datetime end_datetime : Z.
Variable hl_trades_df : list Trade.
Variable hl_funding_df : list Funding.
Variable bb_combined_df : list BBRecord.

Lemma analysis_loop_inv (I : Locals -> Prop) (R : PerformanceRecord -> Prop) :
  (forall coin loc loc' row,
     I loc ->
     analyze_coin start_datetime end_datetime hl_trades_df hl_funding_df bb_combined_df
       coin loc = Ok (loc', row) ->
     I loc' /\ match row with Some r => R r | None => True end) ->
  forall coins loc acc results,
    I loc -> Forall R acc ->
    analysis_loop start_datetime end_datetime hl_trades_df hl_funding_df bb_combined_df
      coins loc acc = Ok results ->
    Forall R results.
Proof.
  intros Hstep. induction coins as [|coin coins IH]; intros loc acc results Hloc Hacc;
    cbn [analysis_loop].
  - now intros [= <-].
  - destruct (analyze_coin _ _ _ _ _ coin loc) as [[loc' row]|err] eqn:E; [|discriminate].
    destruct (Hstep coin loc loc' row Hloc E) as [Hloc' Hrow].
    destruct row as [r|]; apply IH; try assumption.
    apply Forall_app. split; [exact Hacc|]. now repeat constructor.
Qed.

Lemma position_size_nonneg (l : list Trade) : 0 <= position_size l.
Proof.
  unfold position_size. destruct (nonempty l); [apply Qabs_nonneg|lra].
Qed.

Lemma exit_price_open (l : list Trade) (fu : list Funding) :
  position_is_open l fu = true -> exit_price l fu = None.
Proof. intros Ho. unfold exit_price. rewrite Ho. simpl. now rewrite andb_false_r. Qed.

Lemma analyze_coin_consistent (coin : string) (loc loc' : Locals) (row : PerformanceRecord) :
  analyze_coin start_datetime end_datetime hl_trades_df hl_funding_df bb_combined_df
    coin loc = Ok (loc', Some row) ->
  row_consistent row.
Proof.
  unfold analyze_coin. destruct (has_data _ _ _ coin); simpl; [|discriminate].
  destruct (position_is_open _ _) eqn:Hopen.
  - destruct (coin_bb_data_of _ _); [|discriminate]. intros [= _ <-].
    unfold row_consistent. cbn. split; [reflexivity|].
    split; [apply position_size_nonneg|]. right. split; [|reflexivity].
    now apply exit_price_open.
  - destruct (open_trades _); [|discriminate].
    destruct (close_trades _); [|discriminate].
    destruct (coin_bb_data_of _ _); [|discriminate]. intros [= _ <-].
    unfold row_consistent. cbn. split; [reflexivity|].
    split; [apply position_size_nonneg|]. left.
    destruct (position_side_closed _ _ Hopen) as (largest & _ & ->).
    unfold closed_side. destruct (contains _ _); auto.
Qed.

End LoopFacts.

(** X14: in every row of the results the realized PnL is the sum of the
    two commissions and the funding, the position size is not negative,
    and a row whose side is not a closed one has no exit price and a close
    commission of 0. *)
Theorem result_rows_consistent (start_datetime end_datetime : Z) (targets : list string)
    (trades : list Trade) (funding : list Funding) (bb : list BBRecord)
    (results : list PerformanceRecord) :
  analyze_extracted start_datetime end_datetime targets trades funding bb = Ok results ->
  forall row, In row results -> row_consistent row.
Proof.
  unfold analyze_extracted. intros Hrun. apply List.Forall_forall.
  apply (analysis_loop_inv _ _ _ _ _ (fun _ => True) row_consistent) in Hrun;
    [exact Hrun| |exact I|constructor].
  intros coin loc loc' [r|] _ E; split; try exact I.
  exact (analyze_coin_consistent _ _ _ _ _ _ _ _ _ E).
Qed.

Lemma result_rows_consistent_witness :
  exists row,
    analyze_extracted Samples.window_start Samples.window_end ["ENA"%string]
      [Samples.open_short_5; Samples.close_short_2] [] [Samples.bb_trade] = Ok [row] /\
    row_consistent row.
Proof.
  destruct (analyze_extracted Samples.window_start Samples.window_end ["ENA"%string]
              [Samples.open_short_5; Samples.close_short_2] [] [Samples.bb_trade])
    as [[|row [|row' rest]]|err] eqn:E; try (vm_compute in E; discriminate E).
  exists row. split; [reflexivity|].
  apply (result_rows_consistent _ _ _ _ _ _ _ E). now left.
Defined.

(** ** Commissions as costs *)

Lemma annualize_positive_duration (percentage duration_hours : Q) :
  0 < duration_hours ->
  annualize percentage duration_hours == percentage / duration_hours * (365 * 24).
Proof.
  intros Hd. unfold annualize. apply Qltb_lt in Hd. rewrite Hd. simpl.
  destruct (Qeq_bool percentage 0) eqn:E; simpl; [|reflexivity].
  apply Qeq_bool_iff in E. rewrite E. unfold Qdiv. ring.
Qed.

Lemma annualize_no_duration (percentage duration_hours : Q) :
  duration_hours <= 0 -> annualize percentage duration_hours = 0.
Proof. intros Hd. unfold annualize. apply Qltb_ge in Hd. now rewrite Hd. Qed.

Lemma annualize_mono (p q duration_hours : Q) :
  p <= q -> annualize p duration_hours <= annualize q duration_hours.
Proof.
  intros Hpq. destruct (Qlt_le_dec 0 duration_hours) as [Hd|Hd].
  - rewrite !annualize_positive_duration by exact Hd.
    apply Qmult_le_compat_r; [|lra]. unfold Qdiv.
    apply Qmult_le_compat_r; [exact Hpq|].
    apply Qlt_le_weak. now apply Qinv_lt_0_compat.
  - rewrite !annualize_no_duration by exact Hd. lra.
Qed.

Lemma notional_positive (coin : string) : 0 < notional coin.
Proof. unfold notional. destruct (_ || _)%bool; reflexivity. Qed.

Lemma percentage_of_mono (coin : string) (x y : Q) :
  x <= y -> percentage_of coin x <= percentage_of coin y.
Proof.
  intros Hxy. unfold percentage_of. apply Qmult_le_compat_r; [|lra].
  unfold Qdiv. apply Qmult_le_compat_r; [exact Hxy|].
  apply Qlt_le_weak. apply Qinv_lt_0_compat. apply notional_positive.
Qed.

Lemma neg_fee_sum_nonpos (rows : list Trade) :
  (forall t, In t rows -> 0 <= tr_fee t) ->
  (if nonempty rows then - Qsum (map tr_fee rows) else 0) <= 0.
Proof.
  intros Hfee. destruct (nonempty rows); [|lra].
  pose proof (Qsum_map_nonneg tr_fee rows Hfee). lra.
Qed.

Lemma bb_commission_nonpos (rows : list BBRecord) :
  (if nonempty rows then - Qabs (Qsum (map bb_amount rows)) else 0) <= 0.
Proof.
  destruct (nonempty rows); [|lra].
  pose proof (Qabs_nonneg (Qsum (map bb_amount rows))). lra.
Qed.

Section CostFacts.

Variables start_datetime end_datetime : Z.
Variable hl_trades_df : list Trade.
Variable hl_funding_df : list Funding.
Variable bb_combined_df : list BBRecord.

Hypothesis fees_nonneg : forall t, In t hl_trades_df -> 0 <= tr_fee t.

Lemma coin_trades_fees (coin : string) (t : Trade) :
  In t (coin_hl_trades_of hl_trades_df coin) -> 0 <= tr_fee t.
Proof.
  unfold coin_hl_trades_of. rewrite filter_guarded. intros Ht.
  apply fees_nonneg. now apply In_filter_In in Ht.
Qed.

Lemma analyze_coin_costs (coin : string) (loc loc' : Locals)
    (row : option PerformanceRecord) :
  locals_fees_nonneg loc ->
  analyze_coin start_datetime end_datetime hl_trades_df hl_funding_df bb_combined_df
    coin loc = Ok (loc', row) ->
  locals_fees_nonneg loc' /\
  match row with Some r => commissions_are_costs r | None => True end.
Proof.
  intros [Hopen_loc Hclose_loc]. unfold analyze_coin.
  destruct (has_data _ _ _ coin); simpl; [|intros [= <- <-]; now split].
  set (trades := coin_hl_trades_of hl_trades_df coin).
  assert (Htr : forall t, In t trades -> 0 <= tr_fee t) by apply coin_trades_fees.
  assert (Hso : forall t, In t (select_open trades) -> 0 <= tr_fee t)
    by (intros t Ht; apply Htr; now apply In_filter_In in Ht).
  assert (Hsc : forall t, In t (select_close trades) -> 0 <= tr_fee t)
    by (intros t Ht; apply Htr; now apply In_filter_In in Ht).
  set (loc1 := if (position_opened (accumulate trades) && nonempty trades)%bool
               then mkLocals (Some (select_open trades)) (close_trades loc) else loc).
  assert (H1 : locals_fees_nonneg loc1).
  { subst loc1. destruct (_ && _)%bool; [|now split]. split; cbn.
    - intros rows [= <-]. exact Hso.
    - exact Hclose_loc. }
  set (loc2 := if (position_closed (accumulate trades)
                   && negb (position_is_open trades (coin_hl_funding_of hl_funding_df coin))
                   && nonempty trades)%bool
               then mkLocals (open_trades loc1) (Some (select_close trades)) else loc1).
  assert (H2 : locals_fees_nonneg loc2).
  { subst loc2. destruct (_ && _ && _)%bool; [|exact H1]. split; cbn.
    - apply H1.
    - intros rows [= <-]. exact Hsc. }
  clearbody loc2. clear loc1 H1.
  assert (Hrow : forall co cc bb_rows r,
            co <= 0 -> cc <= 0 ->
            let bb_co := if nonempty (List.filter (fun r => BBType_eqb (bb_type r) TRADE) bb_rows)
                         then - Qabs (Qsum (map bb_amount
                                (List.filter (fun r => BBType_eqb (bb_type r) TRADE) bb_rows)))
                         else 0 in
            forall f,
            Commission_Open r = co + bb_co -> Commission_Close r = cc ->
            Funding_Paid_Received r = f ->
            Realized_PnL r = co + bb_co + cc + f ->
            APR r = annualize (percentage_of coin (co + bb_co + cc + f))
                      (duration_hours start_datetime end_datetime) ->
            APR_excluding_commission r
            = annualize (percentage_of coin f) (duration_hours start_datetime end_datetime) ->
            commissions_are_costs r).
  { intros co cc bb_rows r Hco Hcc bb_co f E1 E2 E3 E4 E5 E6.
    pose proof (bb_commission_nonpos
                  (List.filter (fun r => BBType_eqb (bb_type r) TRADE) bb_rows)) as Hbb.
    fold bb_co in Hbb. unfold commissions_are_costs.
    rewrite E1, E2, E3, E4, E5, E6.
    split; [lra|]. split; [lra|]. split; [lra|].
    apply annualize_mono, percentage_of_mono. lra. }
  destruct (position_is_open _ _).
  - destruct (coin_bb_data_of _ _) as [bb_rows|]; [|discriminate].
    intros [= <- <-]. split; [exact H2|].
    eapply (Hrow _ 0 bb_rows); try reflexivity; [|lra].
    now apply neg_fee_sum_nonpos.
  - destruct (open_trades loc2) as [orows|] eqn:Eo; [|discriminate].
    destruct (close_trades loc2) as [crows|] eqn:Ec; [|discriminate].
    destruct (coin_bb_data_of _ _) as [bb_rows|]; [|discriminate].
    intros [= <- <-]. split; [exact H2|].
    eapply (Hrow _ _ bb_rows); try reflexivity.
    + apply neg_fee_sum_nonpos. exact (proj1 H2 orows Eo).
    + apply neg_fee_sum_nonpos. exact (proj2 H2 crows Ec).
Qed.

End CostFacts.

(** X15: when no venue-A fee is negative, every row of the results has
    commissions that are not positive, a realized PnL that is at most the
    funding, and an APR that is at most the APR excluding commission. *)
Theorem commissions_never_positive (start_datetime end_datetime : Z) (targets : list string)
    (trades : list Trade) (funding : list Funding) (bb : list BBRecord)
    (results : list PerformanceRecord) :
  (forall t, In t trades -> 0 <= tr_fee t) ->
  analyze_extracted start_datetime end_datetime targets trades funding bb = Ok results ->
  forall row, In row results -> commissions_are_costs row.
Proof.
  unfold analyze_extracted. intros Hfees Hrun. apply List.Forall_forall.
  apply (analysis_loop_inv _ _ _ _ _ locals_fees_nonneg commissions_are_costs) in Hrun;
    [exact Hrun| | |constructor].
  - intros coin loc loc' row Hloc E.
    eapply analyze_coin_costs; [|exact Hloc|exact E].
    intros t Ht. apply Hfees. now apply In_filter_In in Ht.
  - split; intros rows Hrows; discriminate Hrows.
Qed.

Lemma commissions_never_positive_witness :
  (forall t, In t [Samples.open_long_10; Samples.close_long_10] -> 0 <= tr_fee t) /\
  exists row,
    analyze_extracted Samples.window_start Samples.window_end ["ENA"%string]
      [Samples.open_long_10; Samples.close_long_10] [] [Samples.bb_trade] = Ok [row] /\
    commissions_are_costs row.
Proof.
  assert (Hf : forall t, In t [Samples.open_long_10; Samples.close_long_10] -> 0 <= tr_fee t).
  { intros t [<-|[<-|[]]]; vm_compute; discriminate. }
  split; [exact Hf|].
  destruct (analyze_extracted Samples.window_start Samples.window_end ["ENA"%string]
              [Samples.open_long_10; Samples.close_long_10] [] [Samples.bb_trade])
    as [[|row [|row' rest]]|err] eqn:E; try (vm_compute in E; discriminate E).
  exists row. split; [reflexivity|].
  apply (commissions_never_positive _ _ _ _ _ _ _ Hf E). now left.
Defined.

(** ** When the analysis returns, and with what *)

Section LoopOutcomes.

Variables start_datetime end_datetime : Z.
Variable hl_trades_df : list Trade.
Variable hl_funding_df : list Funding.
Variable bb_combined_df : list BBRecord.

Lemma analyze_coin_no_data (coin : string) (loc : Locals) :
  has_data hl_trades_df hl_funding_df bb_combined_df coin = false ->
  analyze_coin start_datetime end_datetime hl_trades_df hl_funding_df bb_combined_df
    coin loc = Ok (loc, None).
Proof. intros Hd. unfold analyze_coin. now rewrite Hd. Qed.

Lemma analysis_loop_no_data (coins : list string) (loc : Locals)
    (acc : list PerformanceRecord) :
  (forall coin, In coin coins ->
     has_data hl_trades_df hl_funding_df bb_combined_df coin = false) ->
  analysis_loop start_datetime end_datetime hl_trades_df hl_funding_df bb_combined_df
    coins loc acc = Ok acc.
Proof.
  induction coins as [|coin coins IH]; intros Hnone; cbn [analysis_loop]; [reflexivity|].
  rewrite (analyze_coin_no_data coin loc (Hnone coin (or_introl eq_refl))).
  apply IH. intros c Hc. apply Hnone. now right.
Qed.

Lemma analyze_coin_no_bybit_rows (coin : string) (loc : Locals) :
  bb_combined_df = [] ->
  has_data hl_trades_df hl_funding_df bb_combined_df coin = true ->
  exists err,
    analyze_coin start_datetime end_datetime hl_trades_df hl_funding_df bb_combined_df
      coin loc = Raise err.
Proof.
  intros Hbb Hd. unfold analyze_coin. rewrite Hd. simpl.
  assert (Hnone : coin_bb_data_of bb_combined_df coin = None)
    by (unfold coin_bb_data_of; now rewrite Hbb).
  rewrite Hnone.
  destruct (position_is_open _ _); [eauto|].
  destruct (open_trades _); [|eauto]. destruct (close_trades _); eauto.
Qed.

Lemma analysis_loop_no_bybit_rows (coins : list string) (loc : Locals)
    (acc : list PerformanceRecord) :
  bb_combined_df = [] ->
  (exists coin, In coin coins /\
     has_data hl_trades_df hl_funding_df bb_combined_df coin = true) ->
  exists err,
    analysis_loop start_datetime end_datetime hl_trades_df hl_funding_df bb_combined_df
      coins loc acc = Raise err.
Proof.
  intros Hbb. revert loc acc. induction coins as [|coin coins IH]; intros loc acc
    (c & Hc & Hd); [destruct Hc|].
  cbn [analysis_loop].
  destruct (has_data hl_trades_df hl_funding_df bb_combined_df coin) eqn:Hcoin.
  - destruct (analyze_coin_no_bybit_rows coin loc Hbb Hcoin) as (err & ->). eauto.
  - rewrite (analyze_coin_no_data coin loc Hcoin). apply IH.
    exists c. split; [|exact Hd]. destruct Hc as [<-|Hc]; [congruence|exact Hc].
Qed.

End LoopOutcomes.

Lemma filter_none {A} (p : A -> bool) (l : list A) :
  (forall x, In x l -> p x = false) -> List.filter p l = [].
Proof.
  induction l as [|x l IH]; intros Hp; simpl; [reflexivity|].
  rewrite (Hp x (or_introl eq_refl)). apply IH. intros y Hy. apply Hp. now right.
Qed.

Lemma coin_trades_of_targets (targets : list string) (trades : list Trade) (coin : string) :
  In coin targets ->
  coin_hl_trades_of (List.filter (fun t => isin targets (tr_coin t)) trades) coin
  = List.filter (fun t => String.eqb (tr_coin t) coin) trades.
Proof.
  intros Hin. unfold coin_hl_trades_of. rewrite filter_guarded.
  apply filter_filter_implied. intros t Ht. apply String.eqb_eq in Ht.
  rewrite Ht. now apply isin_In.
Qed.

Lemma coin_funding_of_targets (targets : list string) (funding : list Funding)
    (coin : string) :
  In coin targets ->
  coin_hl_funding_of (List.filter (fun f => isin targets (fu_coin f)) funding) coin
  = List.filter (fun f => String.eqb (fu_coin f) coin) funding.
Proof.
  intros Hin. unfold coin_hl_funding_of. rewrite filter_guarded.
  apply filter_filter_implied. intros f Hf. apply String.eqb_eq in Hf.
  rewrite Hf. now apply isin_In.
Qed.

(** X16: when nothing was extracted for any target coin, the analysis
    returns results without a row, whatever was extracted for other
    coins. *)
Theorem no_data_no_rows (start_datetime end_datetime : Z) (targets : list string)
    (trades : list Trade) (funding : list Funding) (bb : list BBRecord) :
  (forall coin, In coin targets -> data_found trades funding bb coin = false) ->
  analyze_extracted start_datetime end_datetime targets trades funding bb = Ok [].
Proof.
  intros Hnone. unfold analyze_extracted. apply analysis_loop_no_data.
  intros coin Hin. rewrite (has_data_found targets trades funding bb coin Hin).
  now apply Hnone.
Qed.

Lemma no_data_no_rows_witness :
  (forall coin, In coin ["BTC"; "ETH"]%string ->
     data_found [Samples.open_long_10] [Samples.funding_long] [Samples.bb_trade] coin
     = false) /\
  analyze_extracted Samples.window_start Samples.window_end ["BTC"; "ETH"]%string
    [Samples.open_long_10] [Samples.funding_long] [Samples.bb_trade] = Ok [].
Proof.
  assert (Hnone : forall coin, In coin ["BTC"; "ETH"]%string ->
            data_found [Samples.open_long_10] [Samples.funding_long] [Samples.bb_trade] coin
            = false) by (intros coin [<-|[<-|[]]]; reflexivity).
  split; [exact Hnone|].
  exact (no_data_no_rows Samples.window_start Samples.window_end _ _ _ _ Hnone).
Defined.

(** X17: when venue B has no row for any target symbol and a target coin
    has a venue-A fill or funding event, the analysis ends with an
    exception and returns no results. *)
Theorem no_bybit_rows_aborts (start_datetime end_datetime : Z) (targets : list string)
    (trades : list Trade) (funding : list Funding) (bb : list BBRecord) :
  (forall r, In r bb ->
     isin (map (fun coin => coin ++ "USDT")%string targets) (bb_symbol r) = false) ->
  (exists coin, In coin targets /\ data_found trades funding bb coin = true) ->
  exists err,
    analyze_extracted start_datetime end_datetime targets trades funding bb = Raise err.
Proof.
  intros Hbb (coin & Hin & Hd). unfold analyze_extracted.
  apply analysis_loop_no_bybit_rows; [now apply filter_none|].
  exists coin. split; [exact Hin|]. now rewrite (has_data_found targets trades funding bb).
Qed.

Lemma no_bybit_rows_aborts_witness :
  (forall r, In r (@nil BBRecord) ->
     isin (map (fun coin => coin ++ "USDT")%string ["ENA"%string]) (bb_symbol r) = false) /\
  data_found [] [Samples.funding_long] [] "ENA" = true /\
  analyze_extracted Samples.window_start Samples.window_end ["ENA"%string]
    [] [Samples.funding_long] [] = Raise (KeyError "type").
Proof.
  assert (Hbb : forall r, In r (@nil BBRecord) ->
            isin (map (fun coin => coin ++ "USDT")%string ["ENA"%string]) (bb_symbol r)
            = false) by (intros r []).
  assert (Hd : data_found [] [Samples.funding_long] [] "ENA" = true) by reflexivity.
  split; [exact Hbb|]. split; [exact Hd|].
  destruct (no_bybit_rows_aborts Samples.window_start Samples.window_end ["ENA"%string]
              [] [Samples.funding_long] [] Hbb
              (ex_intro _ "ENA"%string (conj (or_introl eq_refl) Hd))) as (err & Herr).
  rewrite Herr. vm_compute in Herr. injection Herr as <-. reflexivity.
Defined.

(** X18: when venue B has a row for some target symbol and every target
    coin whose position is closed has a fill tagged 'open' and a fill
    tagged 'close' and not 'open', the analysis returns its results. *)
Theorem analysis_returns_results (start_datetime end_datetime : Z) (targets : list string)
    (trades : list Trade) (funding : list Funding) (bb : list BBRecord) :
  (exists r coin, In r bb /\ In coin targets /\ bb_symbol r = (coin ++ "USDT")%string) ->
  (forall coin, In coin targets ->
     let fills := List.filter (fun t => String.eqb (tr_coin t) coin) trades in
     let events := List.filter (fun f => String.eqb (fu_coin f) coin) funding in
     position_is_open fills events = false ->
     existsb tagged_open fills = true /\ existsb classified_close fills = true) ->
  exists results,
    analyze_extracted start_datetime end_datetime targets trades funding bb = Ok results.
Proof.
  intros (r & c & Hr & Hc & Hsym) Hlegs. unfold analyze_extracted.
  apply analysis_loop_returns.
  - intros Hnil.
    assert (Hin : In r (List.filter
                          (fun r => isin (map (fun coin => coin ++ "USDT")%string targets)
                                      (bb_symbol r)) bb)).
    { apply filter_In. split; [exact Hr|]. apply isin_In. rewrite Hsym.
      apply in_map_iff. now exists c. }
    rewrite Hnil in Hin. destruct Hin.
  - intros coin Hin. unfold closed_has_both_legs.
    rewrite (coin_trades_of_targets targets trades coin Hin),
      (coin_funding_of_targets targets funding coin Hin).
    apply (Hlegs coin Hin).
Qed.

Lemma analysis_returns_results_witness :
  exists results,
    analyze_extracted Samples.window_start Samples.window_end ["ENA"; "SOL"]%string
      [Samples.open_long_10; Samples.close_long_10] [Samples.funding_long]
      [Samples.bb_trade] = Ok results.
Proof.
  apply analysis_returns_results.
  - exists Samples.bb_trade, "ENA"%string. split; [now left|]. split; [now left|reflexivity].
  - intros coin [<-|[<-|[]]]; vm_compute; intros H; try discriminate H; now split.
Defined.

(** X19: the rows of the results are those of the target coins with
    data, in the order of the target list; a coin listed twice has its row
    twice. *)
Theorem rows_follow_target_order (start_datetime end_datetime : Z) (targets : list string)
    (trades : list Trade) (funding : list Funding) (bb : list BBRecord)
    (results : list PerformanceRecord) :
  analyze_extracted start_datetime end_datetime targets trades funding bb = Ok results ->
  map Symbol results = List.filter (data_found trades funding bb) targets.
Proof. apply analyze_extracted_symbols. Qed.

Lemma rows_follow_target_order_witness :
  exists results,
    analyze_extracted Samples.window_start Samples.window_end ["SOL"; "ENA"; "ENA"]%string
      [Samples.open_short_5] [] [Samples.bb_trade] = Ok results /\
    map Symbol results = ["ENA"; "ENA"]%string.
Proof.
  destruct (analyze_extracted Samples.window_start Samples.window_end
              ["SOL"; "ENA"; "ENA"]%string [Samples.open_short_5] [] [Samples.bb_trade])
    as [results|err] eqn:E; [|vm_compute in E; discriminate E].
  exists results. split; [reflexivity|].
  exact (rows_follow_target_order _ _ _ _ _ _ _ E).
Defined.

(** ** The metrics, further *)







(** ** Sides, sizes and coins without fills *)

Section SideFacts.

Variables start_datetime end_datetime : Z.
Variable hl_trades_df : list Trade.
Variable hl_funding_df : list Funding.
Variable bb_combined_df : list BBRecord.

Lemma position_side_open (l : list Trade) (fu : list Funding) :
  position_is_open l fu = true ->
  (position_side l fu = "Long hl" \/ position_side l fu = "Short hl"
   \/ position_side l fu = "")%string.
Proof.
  unfold position_is_open, position_side, position_status.
  destruct (largest_trade l).
  - destruct (Qltb epsilon _); [|discriminate]. intros _. simpl.
    destruct (Qltb 0 _); auto.
  - intros _. simpl. destruct (last fu) as [latest|]; [|auto].
    destruct (Qltb 0 _); auto.
Qed.

Lemma open_side_not_closed (side : string) :
  (side = "Long hl" \/ side = "Short hl" \/ side = "")%string -> ~ closed_side side.
Proof. intros [-> | [-> | ->]] [H | H]; discriminate H. Qed.

Lemma analyze_coin_size (coin : string) (loc loc' : Locals) (row : PerformanceRecord) :
  analyze_coin start_datetime end_datetime hl_trades_df hl_funding_df bb_combined_df
    coin loc = Ok (loc', Some row) ->
  size_matches_side row.
Proof.
  unfold analyze_coin. destruct (has_data _ _ _ coin); simpl; [|discriminate].
  set (trades := coin_hl_trades_of hl_trades_df coin).
  set (events := coin_hl_funding_of hl_funding_df coin).
  destruct (position_is_open trades events) eqn:Hopen.
  - destruct (coin_bb_data_of _ _); [|discriminate]. intros [= _ <-].
    unfold size_matches_side. cbn. split.
    + intros Hc. exfalso.
      exact (open_side_not_closed _ (position_side_open _ _ Hopen) Hc).
    + intros _. unfold position_size. destruct trades as [|t0 rest0]; [now left|].
      right. cbn [nonempty]. rewrite position_is_open_nonempty in Hopen.
      now apply Qltb_lt.
  - destruct (open_trades _); [|discriminate].
    destruct (close_trades _); [|discriminate].
    destruct (coin_bb_data_of _ _); [|discriminate]. intros [= _ <-].
    unfold size_matches_side. cbn.
    destruct (position_side_closed _ _ Hopen) as (largest & _ & Hside).
    assert (Hcl : closed_side (position_side trades events))
      by (rewrite Hside; unfold closed_side; destruct (contains _ _); auto).
    split; [|intros Hn; now destruct Hn].
    intros _. unfold position_size. destruct trades as [|t0 rest0]; [discriminate Hopen|].
    cbn [nonempty]. rewrite position_is_open_nonempty in Hopen.
    now apply Qltb_ge.
Qed.

Lemma analyze_coin_without_fills (coin : string) (loc loc' : Locals)
    (row : PerformanceRecord) :
  coin_hl_trades_of hl_trades_df coin = [] ->
  analyze_coin start_datetime end_datetime hl_trades_df hl_funding_df bb_combined_df
    coin loc = Ok (loc', Some row) ->
  Symbol row = coin /\ row_without_fills row.
Proof.
  intros Hnone. unfold analyze_coin. rewrite Hnone.
  destruct (has_data _ _ _ coin); simpl; [|discriminate].
  assert (Hopen : forall fu, position_is_open [] fu = true) by reflexivity.
  destruct (coin_bb_data_of _ _); [|discriminate]. intros [= _ <-].
  split; [reflexivity|]. unfold row_without_fills. cbn [Side Entry_Price Exit_Price
    Position_Size Commission_Close].
  split; [exact (position_side_open [] _ (Hopen _))|]. repeat split.
Qed.

End SideFacts.

(** X22: in every row of the results the position size is at most 0.001
    when the side is a closed one, and otherwise 0 (a coin without fills)
    or more than 0.001. *)
Theorem result_size_matches_side (start_datetime end_datetime : Z) (targets : list string)
    (trades : list Trade) (funding : list Funding) (bb : list BBRecord)
    (results : list PerformanceRecord) :
  analyze_extracted start_datetime end_datetime targets trades funding bb = Ok results ->
  forall row, In row results -> size_matches_side row.
Proof.
  unfold analyze_extracted. intros Hrun. apply List.Forall_forall.
  apply (analysis_loop_inv _ _ _ _ _ (fun _ => True) size_matches_side) in Hrun;
    [exact Hrun| |exact I|constructor].
  intros coin loc loc' [r|] _ E; split; try exact I.
  exact (analyze_coin_size _ _ _ _ _ _ _ _ _ E).
Qed.

Lemma result_size_matches_side_witness :
  exists row,
    analyze_extracted Samples.window_start Samples.window_end ["ENA"%string]
      [Samples.open_long_10; Samples.close_long_10] [] [Samples.bb_trade] = Ok [row] /\
    size_matches_side row.
Proof.
  destruct (analyze_extracted Samples.window_start Samples.window_end ["ENA"%string]
              [Samples.open_long_10; Samples.close_long_10] [] [Samples.bb_trade])
    as [[|row [|row' rest]]|err] eqn:E; try (vm_compute in E; discriminate E).
  exists row. split; [reflexivity|].
  apply (result_size_matches_side _ _ _ _ _ _ _ E). now left.
Defined.

(** X23: the row of a coin for which no fill was extracted has a side
    inferred from the funding ('Long hl', 'Short hl', or empty without a
    funding event), no entry or exit price, a position size of 0 and a
    close commission of 0. *)
Theorem rows_of_coins_without_fills (start_datetime end_datetime : Z)
    (targets : list string) (trades : list Trade) (funding : list Funding)
    (bb : list BBRecord) (results : list PerformanceRecord) :
  analyze_extracted start_datetime end_datetime targets trades funding bb = Ok results ->
  forall row, In row results ->
    (forall t, In t trades -> tr_coin t <> Symbol row) ->
    row_without_fills row.
Proof.
  unfold analyze_extracted. intros Hrun.
  set (hl := List.filter (fun t => isin targets (tr_coin t)) trades) in *.
  assert (Hall : Forall (fun row => coin_hl_trades_of hl (Symbol row) = [] ->
                                    row_without_fills row) results).
  { apply (analysis_loop_inv _ _ _ _ _ (fun _ => True)
             (fun row => coin_hl_trades_of hl (Symbol row) = [] -> row_without_fills row))
      in Hrun; [exact Hrun| |exact I|constructor].
    intros coin loc loc' [r|] _ E; split; try exact I.
    intros Hnone.
    assert (Hsym : Symbol r = coin).
    { pose proof (analyze_coin_row _ _ _ _ _ _ _ _ _ E) as Hr. apply Hr. }
    rewrite Hsym in Hnone.
    exact (proj2 (analyze_coin_without_fills _ _ _ _ _ _ _ _ _ Hnone E)). }
  intros row Hrow Hcoin. rewrite List.Forall_forall in Hall. apply (Hall row Hrow).
  unfold coin_hl_trades_of. rewrite filter_guarded. apply filter_none.
  intros t Ht. apply String.eqb_neq. apply Hcoin. subst hl. now apply In_filter_In in Ht.
Qed.

Lemma rows_of_coins_without_fills_witness :
  exists row,
    analyze_extracted Samples.window_start Samples.window_end ["ENA"%string]
      [] [Samples.funding_long] [Samples.bb_trade] = Ok [row] /\
    row_without_fills row /\ Side row = "Long hl"%string.
Proof.
  destruct (analyze_extracted Samples.window_start Samples.window_end ["ENA"%string]
              [] [Samples.funding_long] [Samples.bb_trade])
    as [[|row [|row' rest]]|err] eqn:E; try (vm_compute in E; discriminate E).
  exists row. split; [reflexivity|]. split.
  - apply (rows_of_coins_without_fills _ _ _ _ _ _ _ E); [now left|intros t []].
  - vm_compute in E. injection E as <-. reflexivity.
Defined.

(** ** The whole run, further *)

(** X24: a run over a window that ends no later than it starts extracts
    nothing and returns results without a row, whatever the venues would
    answer and whatever the target coins. *)
Theorem empty_window_run (fuel : nat)
    (fills_client : Request -> Response RawFill)
    (funding_client : Request -> Response RawFunding)
    (bb_client : BBRequest -> option BBResult)
    (start_datetime end_datetime : Z) (target_coins : list string) :
  (end_datetime <= start_datetime)%Z ->
  analyze_performance (S fuel) fills_client funding_client bb_client
    start_datetime end_datetime target_coins = Some (Ok []).
Proof.
  intros Hle. unfold analyze_performance, extract_hyperliquid_trades,
    extract_hyperliquid_funding.
  rewrite !chunked_extract_empty_window by exact Hle.
  rewrite extract_bybit_data_empty_window by exact Hle.
  cbn [frame]. f_equal. unfold analyze_extracted. apply analysis_loop_no_data.
  intros coin _. reflexivity.
Qed.

Lemma empty_window_run_witness :
  (Samples.window_end <= Samples.window_end)%Z /\
  analyze_performance 1 Samples.cancelling_opens Samples.no_funding Samples.bb_overlap
    Samples.window_end Samples.window_end ["ENA"%string] = Some (Ok []).
Proof.
  assert (Hle : (Samples.window_end <= Samples.window_end)%Z) by lia.
  split; [exact Hle|].
  exact (empty_window_run 0 _ _ _ _ _ _ Hle).
Defined.
